(** * DBNotebook Query API example client: model and verification

    A shallow embedding of [scripts/query_api_example.py].  The script is a
    sequence of [print] calls and HTTP requests driven by dynamically typed
    JSON data, so the model has three layers:

    - the Python values the script handles (parsed JSON) and the builtin
      operations it applies to them, each with the exception it raises on
      a value of the wrong type;
    - a state-and-exception monad [Py] over a [World] that records the
      mutable module globals, every line printed, every HTTP request sent
      and the number of UUIDs drawn;
    - the script's functions, written in that monad in the order of the
      source. *)

From Stdlib Require Import ZArith String Ascii List Bool Lia.
From Stdlib Require Import Floats.SpecFloat Sorting.Sorted.
From stdpp Require Import base option list gmap strings pretty.

Set Warnings "-register-all,-clear-no-such-hyp".

Local Open Scope string_scope.
Local Open Scope list_scope.
Local Open Scope Z_scope.

(* ================================================================== *)
(** ** Python values *)

(** What [response.json()] can return.  A JSON object becomes a [dict];
    its items are kept in insertion order.  Floats are IEEE binary64
    values; integers are unbounded.  Text is a sequence of characters,
    one [ascii] per character (non-ASCII text is carried as its UTF-8
    bytes, which leaves every operation below unchanged on ASCII
    input). *)
Inductive value : Type :=
  | VNone
  | VBool (b : bool)
  | VInt (n : Z)
  | VFloat (x : spec_float)
  | VStr (s : string)
  | VList (l : list value)
  | VDict (d : list (string * value)).

(** The exceptions the script can meet.  None of them is caught anywhere
    in the source. *)
Inductive exn : Type :=
  | AttributeError
  | TypeError
  | ValueError
  | KeyError
  | IndexError
  | OverflowError
  | JSONDecodeError
  | ConnectionError.

Inductive outcome (A : Type) : Type :=
  | Returns (a : A)
  | Raises (e : exn).
Arguments Returns {A} a.
Arguments Raises {A} e.

#[global] Instance exn_eq_dec : EqDecision exn.
Proof. solve_decision. Defined.

(** [bool(v)]. *)
Definition py_truthy (v : value) : bool :=
  match v with
  | VNone => false
  | VBool b => b
  | VInt n => negb (n =? 0)%Z
  | VFloat (S754_zero _) => false
  | VFloat _ => true
  | VStr s => negb (String.eqb s "")
  | VList l => match l with [] => false | _ => true end
  | VDict d => match d with [] => false | _ => true end
  end.

(** Truthiness of the two [Optional] parameters. *)
Definition truthy_str (o : option string) : bool :=
  match o with
  | Some s => negb (String.eqb s "")
  | None => false
  end.

Definition truthy_int (o : option Z) : bool :=
  match o with
  | Some n => negb (n =? 0)%Z
  | None => false
  end.

(** Lookup in the items of a [dict]. *)
Fixpoint dict_lookup (k : string) (d : list (string * value)) : option value :=
  match d with
  | [] => None
  | (k', v) :: d' => if String.eqb k k' then Some v else dict_lookup k d'
  end.

(** [v.get(k, dflt)]: only a [dict] has the method. *)
Definition py_get (v : value) (k : string) (dflt : value) : outcome value :=
  match v with
  | VDict d => Returns (default dflt (dict_lookup k d))
  | _ => Raises AttributeError
  end.

(** [v[k]] with a string key. *)
Definition py_getitem (v : value) (k : string) : outcome value :=
  match v with
  | VDict d =>
      match dict_lookup k d with
      | Some x => Returns x
      | None => Raises KeyError
      end
  | _ => Raises TypeError
  end.

(** [v[0]]. *)
Definition py_first (v : value) : outcome value :=
  match v with
  | VList (x :: _) => Returns x
  | VList [] => Raises IndexError
  | VStr (String c _) => Returns (VStr (String c ""))
  | VStr "" => Raises IndexError
  | VDict _ => Raises KeyError
  | _ => Raises TypeError
  end.

(** [len(v)]. *)
Definition py_len (v : value) : outcome nat :=
  match v with
  | VStr s => Returns (String.length s)
  | VList l => Returns (length l)
  | VDict d => Returns (length d)
  | _ => Raises TypeError
  end.

Fixpoint chars (s : string) : list value :=
  match s with
  | "" => []
  | String c s' => VStr (String c "") :: chars s'
  end.

(** The elements a [for] loop visits. *)
Definition py_iter (v : value) : outcome (list value) :=
  match v with
  | VList l => Returns l
  | VStr s => Returns (chars s)
  | VDict d => Returns (map (fun kv => VStr (fst kv)) d)
  | _ => Raises TypeError
  end.

(** [v.items()]. *)
Definition py_items (v : value) : outcome (list (string * value)) :=
  match v with
  | VDict d => Returns d
  | _ => Raises AttributeError
  end.

Fixpoint str_take (n : nat) (s : string) : string :=
  match n, s with
  | S n', String c s' => String c (str_take n' s')
  | _, _ => ""
  end.

(** [v[:n]].  Slicing a [dict] fails (with [TypeError] up to Python 3.11,
    [KeyError] from 3.12 on; the model keeps the former). *)
Definition py_slice_to (n : nat) (v : value) : outcome value :=
  match v with
  | VStr s => Returns (VStr (str_take n s))
  | VList l => Returns (VList (take n l))
  | _ => Raises TypeError
  end.

(** [s == v] for a string [s]. *)
Definition py_eq_str (s : string) (v : value) : bool :=
  match v with
  | VStr t => String.eqb s t
  | _ => false
  end.

(** [s in l] for a string [s] and a list [l]. *)
Definition py_in (s : string) (l : list value) : bool :=
  existsb (py_eq_str s) l.

(** [outcome] is the exception monad. *)
#[global] Instance outcome_ret : MRet outcome := fun _ a => Returns a.
#[global] Instance outcome_bind : MBind outcome := fun _ _ f m =>
  match m with
  | Returns a => f a
  | Raises e => Raises e
  end.

(* ================================================================== *)
(** ** Text *)

Definition LF : string := String (ascii_of_nat 10) "".

Fixpoint str_repeat (s : string) (n : nat) : string :=
  match n with
  | O => ""
  | S n' => s +:+ str_repeat s n'
  end.

(** ["=" * 60] and ['─' * 60]; the box-drawing character U+2500 is the
    three bytes 226, 148, 128. *)
Definition rule_eq : string := str_repeat "=" 60.
Definition rule_box : string :=
  str_repeat (String (ascii_of_nat 226) (String (ascii_of_nat 148)
                (String (ascii_of_nat 128) ""))) 60.

Definition is_lower (c : ascii) : bool :=
  ((97 <=? nat_of_ascii c) && (nat_of_ascii c <=? 122))%nat.
Definition is_upper (c : ascii) : bool :=
  ((65 <=? nat_of_ascii c) && (nat_of_ascii c <=? 90))%nat.
Definition to_upper (c : ascii) : ascii :=
  if is_lower c then ascii_of_nat (nat_of_ascii c - 32) else c.
Definition to_lower (c : ascii) : ascii :=
  if is_upper c then ascii_of_nat (nat_of_ascii c + 32) else c.

(** [s.upper()]. *)
Fixpoint str_upper (s : string) : string :=
  match s with
  | "" => ""
  | String c s' => String (to_upper c) (str_upper s')
  end.

(** [s.title()]: a letter that follows a letter is lowered, any other
    letter is raised. *)
Fixpoint title_from (prev_cased : bool) (s : string) : string :=
  match s with
  | "" => ""
  | String c s' =>
      if is_lower c then
        String (if prev_cased then c else to_upper c) (title_from true s')
      else if is_upper c then
        String (if prev_cased then to_lower c else c) (title_from true s')
      else String c (title_from false s')
  end.
Definition str_title (s : string) : string := title_from false s.

(** [s.replace(old, new)] for a non-empty [old]: occurrences are replaced
    from left to right without overlap.  [skip] counts the characters of
    a matched occurrence still to be dropped. *)
Fixpoint replace_from (old new : string) (skip : nat) (s : string) : string :=
  match s with
  | "" => ""
  | String c s' =>
      match skip with
      | S k => replace_from old new k s'
      | O =>
          if String.prefix old s
          then new +:+ replace_from old new (String.length old - 1) s'
          else String c (replace_from old new 0 s')
      end
  end.
Definition str_replace (old new s : string) : string := replace_from old new 0 s.

(** The label of a timing stage:
    [key.replace("_ms", "").replace("_", " ").title()]. *)
Definition stage_name (key : string) : string :=
  str_title (str_replace "_" " " (str_replace "_ms" "" key)).

(** [sorted(items)] on the items of a [dict]: by key, in code-point
    order (keys of one [dict] are distinct, so values are never
    compared). *)
Fixpoint insert_by_key (kv : string * value) (l : list (string * value))
  : list (string * value) :=
  match l with
  | [] => [kv]
  | kv' :: l' =>
      if String.leb (fst kv) (fst kv') then kv :: l
      else kv' :: insert_by_key kv l'
  end.
Definition sorted_items (l : list (string * value)) : list (string * value) :=
  foldr insert_by_key [] l.

(** *** Fixed-point formatting, [format(v, ".3f")] *)

(** [num / den] rounded to the nearest integer, ties to even
    ([0 <= num], [0 < den]). *)
Definition round_half_even (num den : Z) : Z :=
  let q := num / den in
  match 2 * (num mod den) ?= den with
  | Lt => q
  | Gt => q + 1
  | Eq => if Z.even q then q else q + 1
  end.

Definition pad3 (n : Z) : string :=
  (if n <? 10 then "00" else if n <? 100 then "0" else "") +:+ pretty n.

(** The text of [thousandths / 1000] with three decimals. *)
Definition fixed3_text (negative : bool) (thousandths : Z) : string :=
  (if negative then "-" else "") +:+ pretty (thousandths / 1000) +:+ "."
  +:+ pad3 (thousandths mod 1000).

Definition float_fixed3 (x : spec_float) : string :=
  match x with
  | S754_zero s => fixed3_text s 0
  | S754_infinity s => if s then "-inf" else "inf"
  | S754_nan => "nan"
  | S754_finite s m e =>
      fixed3_text s
        (if 0 <=? e then Z.pos m * 2 ^ e * 1000
         else round_half_even (Z.pos m * 1000) (2 ^ (- e)))
  end.

(** [float(n)] for an integer: the nearest binary64, or [OverflowError]. *)
Definition float_of_int (n : Z) : outcome spec_float :=
  match binary_normalize 53 1024 n 0 false with
  | S754_infinity _ => Raises OverflowError
  | x => Returns x
  end.

(** [f"{v:.3f}"].  Numbers (and [bool], a subclass of [int]) accept the
    format; [str] rejects the code [f] with [ValueError]; [None], lists
    and dicts reject any format with [TypeError]. *)
Definition py_format_3f (v : value) : outcome string :=
  match v with
  | VFloat x => Returns (float_fixed3 x)
  | VInt n => x ← float_of_int n; Returns (float_fixed3 x)
  | VBool b => x ← float_of_int (if b then 1 else 0); Returns (float_fixed3 x)
  | VStr _ => Raises ValueError
  | VNone | VList _ | VDict _ => Raises TypeError
  end.

(** *** [repr] of a string *)

Definition quote1 : ascii := ascii_of_nat 39.
Definition quote2 : ascii := ascii_of_nat 34.
Definition backslash : ascii := ascii_of_nat 92.

Fixpoint str_mem (c : ascii) (s : string) : bool :=
  match s with
  | "" => false
  | String c' s' => Ascii.eqb c c' || str_mem c s'
  end.

Definition hex_digit (n : nat) : ascii :=
  nth n (list_ascii_of_string "0123456789abcdef") "0"%char.

Definition repr_char (quote c : ascii) : string :=
  let n := nat_of_ascii c in
  if Ascii.eqb c quote || Ascii.eqb c backslash then String backslash (String c "")
  else if (n =? 9)%nat then String backslash "t"
  else if (n =? 10)%nat then String backslash "n"
  else if (n =? 13)%nat then String backslash "r"
  else if ((n <? 32) || (n =? 127))%nat then
    String backslash (String "x" (String (hex_digit (n / 16))
                                    (String (hex_digit (n mod 16)) "")))
  else String c "".

Fixpoint repr_chars (quote : ascii) (s : string) : string :=
  match s with
  | "" => ""
  | String c s' => repr_char quote c +:+ repr_chars quote s'
  end.

(** Single quotes, unless the text has a single quote and no double one. *)
Definition str_repr (s : string) : string :=
  let quote := if str_mem quote1 s && negb (str_mem quote2 s) then quote2 else quote1 in
  String quote (repr_chars quote s) +:+ String quote "".

Fixpoint str_join (sep : string) (l : list string) : string :=
  match l with
  | [] => ""
  | [s] => s
  | s :: l' => s +:+ sep +:+ str_join sep l'
  end.

(* ================================================================== *)
(** ** The world the script runs in *)

Inductive Method : Type := GET | POST.

#[global] Instance Method_eq_dec : EqDecision Method.
Proof. solve_decision. Defined.

(** A call of [requests.get(url, headers=...)] or
    [requests.post(url, headers=..., json=...)].  The JSON body is the
    [dict] handed to [json=]: a finite map from keys to values. *)
Record Request : Type := mkRequest {
  req_method : Method;
  req_url : string;
  req_headers : gmap string string;
  req_json : option (gmap string value)
}.

(** What the script reads of a response: [status_code], [text] and
    [json()], which fails when the body is not JSON. *)
Record Response : Type := mkResponse {
  status_code : Z;
  text : string;
  json_body : option value
}.

(** A request is answered, or the transport fails. *)
Inductive Reply : Type :=
  | Answered (r : Response)
  | NoAnswer.

(** The module globals ([BASE_URL], [API_KEY] and [HEADERS] are
    reassigned by [main]), the lines printed so far, the requests sent so
    far (oldest first) and the number of calls of [uuid.uuid4]. *)
Record World : Type := mkWorld {
  BASE_URL : string;
  API_KEY : string;
  NOTEBOOK_ID : string;
  HEADERS : gmap string string;
  stdout : list string;
  sent : list Request;
  uuids_drawn : nat
}.

(** [os.getenv(name, dflt)]. *)
Definition getenv (environ : gmap string string) (name dflt : string) : string :=
  default dflt (environ !! name).

Definition make_headers (api_key : string) : gmap string string :=
  <["Content-Type" := "application/json"]> (<["X-API-Key" := api_key]> ∅).

(** The state after the module body has run (lines 95-114). *)
Definition module_init (environ : gmap string string) : World :=
  let base_url := getenv environ "DBNOTEBOOK_API_URL" "http://localhost:7860" in
  let api_key := getenv environ "DBNOTEBOOK_API_KEY" "dbn_00000000000000000000000000000001" in
  let notebook_id :=
    getenv environ "DBNOTEBOOK_NOTEBOOK_ID" "18ee0c23-a2ce-4eb2-a56c-62a12dee964a" in
  {| BASE_URL := base_url; API_KEY := api_key; NOTEBOOK_ID := notebook_id;
     HEADERS := make_headers api_key;
     stdout := []; sent := []; uuids_drawn := 0 |}.

Definition AVAILABLE_MODELS : list (string * list string) :=
  [ ("openai", ["gpt-4.1-mini"; "gpt-4.1"; "gpt-4o"; "gpt-4o-mini"]);
    ("groq", ["meta-llama/llama-4-maverick-17b-128e-instruct"; "llama-3.3-70b-versatile"]);
    ("ollama", ["llama3.1:latest"; "mistral:latest"; "qwen2.5:latest"]);
    ("anthropic", ["claude-sonnet-4-20250514"; "claude-3-5-haiku-latest"]);
    ("gemini", ["gemini-2.0-flash"; "gemini-1.5-pro"]) ].

(** The values of the command-line options as the user gave them:
    [None] for an option that was not given, [false] for a switch that
    was not set. *)
Record CommandLine : Type := mkCommandLine {
  opt_model : option string;
  opt_notebook : option string;
  opt_query : option string;
  opt_url : option string;
  opt_api_key : option string;
  opt_list_models : bool;
  opt_list_notebooks : bool;
  opt_no_demo : bool;
  opt_top_k : option Z;
  opt_max_sources : option Z;
  opt_no_reranker : bool;
  opt_include_raptor : bool;
  opt_max_history : option Z
}.

(** The namespace [parse_args()] returns. *)
Record Namespace : Type := mkNamespace {
  args_model : option string;
  args_notebook : string;
  args_query : option string;
  args_url : string;
  args_api_key : string;
  args_list_models : bool;
  args_list_notebooks : bool;
  args_no_demo : bool;
  args_top_k : option Z;
  args_max_sources : Z;
  args_no_reranker : bool;
  args_include_raptor : bool;
  args_max_history : Z
}.

(** The Python value of an [Optional] argument. *)
Definition value_of_str (o : option string) : value :=
  match o with
  | Some s => VStr s
  | None => VNone
  end.

Definition value_of_int (o : option Z) : value :=
  match o with
  | Some n => VInt n
  | None => VNone
  end.

(** *** The monad *)

Definition Py (A : Type) : Type := World → outcome A * World.

#[global] Instance Py_ret : MRet Py := λ _ a w, (Returns a, w).
#[global] Instance Py_bind : MBind Py := λ _ _ f m w,
  match m w with
  | (Returns a, w') => f a w'
  | (Raises e, w') => (Raises e, w')
  end.

(** An operation on values, run inside the script. *)
Definition lift {A} (o : outcome A) : Py A := λ w, (o, w).

Definition read {A} (field : World → A) : Py A := λ w, (Returns (field w), w).

(** The four ways the script changes the world. *)
Definition with_line (line : string) (w : World) : World :=
  {| BASE_URL := BASE_URL w; API_KEY := API_KEY w; NOTEBOOK_ID := NOTEBOOK_ID w;
     HEADERS := HEADERS w; stdout := stdout w ++ [line]; sent := sent w;
     uuids_drawn := uuids_drawn w |}.

Definition with_request (r : Request) (w : World) : World :=
  {| BASE_URL := BASE_URL w; API_KEY := API_KEY w; NOTEBOOK_ID := NOTEBOOK_ID w;
     HEADERS := HEADERS w; stdout := stdout w; sent := sent w ++ [r];
     uuids_drawn := uuids_drawn w |}.

Definition with_uuid (w : World) : World :=
  {| BASE_URL := BASE_URL w; API_KEY := API_KEY w; NOTEBOOK_ID := NOTEBOOK_ID w;
     HEADERS := HEADERS w; stdout := stdout w; sent := sent w;
     uuids_drawn := S (uuids_drawn w) |}.

Definition with_globals (base_url api_key : string) (headers : gmap string string)
    (w : World) : World :=
  {| BASE_URL := base_url; API_KEY := api_key; NOTEBOOK_ID := NOTEBOOK_ID w;
     HEADERS := headers; stdout := stdout w; sent := sent w;
     uuids_drawn := uuids_drawn w |}.

Definition print (line : string) : Py unit := λ w, (Returns tt, with_line line w).

(** [global BASE_URL, API_KEY, HEADERS] followed by the three
    assignments. *)
Definition set_globals (base_url api_key : string) (headers : gmap string string)
  : Py unit := λ w, (Returns tt, with_globals base_url api_key headers w).

(** [if cond: body] with no [else]. *)
Definition when (cond : bool) (body : Py unit) : Py unit :=
  if cond then body else mret tt.

(** A [for] loop whose body neither breaks nor returns. *)
Fixpoint for_each {A} (l : list A) (body : A → Py unit) : Py unit :=
  match l with
  | [] => mret tt
  | x :: l' => body x;; for_each l' body
  end.

(** [enumerate(l, start)]. *)
Fixpoint enumerate {A} (start : nat) (l : list A) : list (nat * A) :=
  match l with
  | [] => []
  | x :: l' => (start, x) :: enumerate (S start) l'
  end.

(** [response.json()]. *)
Definition response_json (r : Response) : Py value :=
  match json_body r with
  | Some v => mret v
  | None => lift (Raises JSONDecodeError)
  end.

Section Script.

(** The service: its reply to a request may depend on every request sent
    before it.  The argument is the history, the request being answered
    last. *)
Variable server : list Request → Reply.

(** The successive results of [str(uuid.uuid4())]. *)
Variable uuid4 : nat → string.

(** [repr] of a float (the shortest text that reads back as the same
    binary64). *)
Variable float_repr : spec_float → string.

(** [repr(v)] and [str(v)], the text an f-string inserts for [{v}]. *)
Fixpoint py_repr (v : value) : string :=
  match v with
  | VNone => "None"
  | VBool b => if b then "True" else "False"
  | VInt n => pretty n
  | VFloat x => float_repr x
  | VStr s => str_repr s
  | VList l => "[" +:+ str_join ", " (map py_repr l) +:+ "]"
  | VDict d =>
      "{" +:+ str_join ", "
                (map (λ kv, let '(k, x) := kv in str_repr k +:+ ": " +:+ py_repr x) d)
      +:+ "}"
  end.

Definition py_str (v : value) : string :=
  match v with
  | VStr s => s
  | _ => py_repr v
  end.

(** [requests.get] and [requests.post]: the request goes out, then the
    reply comes back or [ConnectionError] is raised. *)
Definition send (r : Request) : Py Response := λ w,
  match server (sent w ++ [r]) with
  | Answered resp => (Returns resp, with_request r w)
  | NoAnswer => (Raises ConnectionError, with_request r w)
  end.

Definition requests_get (url : string) (headers : gmap string string) : Py Response :=
  send (mkRequest GET url headers None).

Definition requests_post (url : string) (headers : gmap string string)
    (json : gmap string value) : Py Response :=
  send (mkRequest POST url headers (Some json)).

(** [str(uuid.uuid4())]. *)
Definition uuid4_str : Py string := λ w,
  (Returns (uuid4 (uuids_drawn w)), with_uuid w).

(* ================================================================== *)
(** ** The script *)

(** [list_models()] *)
Definition list_models : Py unit :=
  print (LF +:+ rule_eq);;
  print "Available Models";;
  print rule_eq;;
  for_each AVAILABLE_MODELS (λ pm,
    print (LF +:+ str_upper (fst pm) +:+ ":");;
    for_each (snd pm) (λ model, print ("  - " +:+ model)));;
  print "".

(** Lines 149-153 of [list_notebooks]: the body of the loop. *)
Definition print_notebook (nb : value) : Py unit :=
  id ← lift (py_getitem nb "id");
  print ("  ID: " +:+ py_str id);;
  name ← lift (py_getitem nb "name");
  print ("  Name: " +:+ py_str name);;
  document_count ← lift (py_getitem nb "document_count");
  print ("  Documents: " +:+ py_str document_count);;
  created_at ← lift (py_getitem nb "created_at");
  print ("  Created: " +:+ py_str created_at);;
  print "".

(** Lines 140-155 of [list_notebooks]: what is done with the response. *)
Definition report_notebooks (response : Response) : Py value :=
  if negb (status_code response =? 200) then
    print ("Error: " +:+ pretty (status_code response) +:+ " - " +:+ text response);;
    mret (VList [])
  else
    data ← response_json response;
    notebooks ← lift (py_get data "notebooks" (VList []));
    count ← lift (py_len notebooks);
    print (LF +:+ "Found " +:+ pretty count +:+ " notebook(s):" +:+ LF);;
    items ← lift (py_iter notebooks);
    for_each items print_notebook;;
    mret notebooks.

(** [list_notebooks()] *)
Definition list_notebooks : Py value :=
  print (LF +:+ rule_eq);;
  print "Listing Available Notebooks";;
  print rule_eq;;
  base_url ← read BASE_URL;
  headers ← read HEADERS;
  response ← requests_get (base_url +:+ "/api/query/notebooks") headers;
  report_notebooks response.

(** The [dict] built at lines 191-205 of [query_stateless]. *)
Definition stateless_payload (notebook_id : value) (query : string)
    (model : option string) (top_k : option Z) (max_sources : Z)
    (reranker_enabled skip_raptor : bool) : gmap string value :=
  let payload : gmap string value :=
    <["max_sources" := VInt max_sources]>
      (<["include_sources" := VBool true]>
         (<["query" := VStr query]>
            (<["notebook_id" := notebook_id]> ∅))) in
  let payload :=
    if truthy_str model then <["model" := value_of_str model]> payload else payload in
  let payload :=
    if truthy_int top_k then <["top_k" := value_of_int top_k]> payload else payload in
  let payload :=
    if negb reranker_enabled then <["reranker_enabled" := VBool false]> payload
    else payload in
  let payload :=
    if negb skip_raptor then <["skip_raptor" := VBool false]> payload else payload in
  payload.

(** Lines 217-252 of [query_stateless]: the printing of a decoded
    response. *)
Definition print_result (result : value) : Py unit :=
  print (LF +:+ rule_box);;
  print "Response:";;
  print rule_box;;
  answer ← lift (py_get result "response" (VStr "No response"));
  print (py_str answer);;
  metadata ← lift (py_get result "metadata" (VDict []));
  print (LF +:+ rule_box);;
  print "Metadata:";;
  execution_time ← lift (py_get metadata "execution_time_ms" (VStr "N/A"));
  print ("  Execution time: " +:+ py_str execution_time +:+ "ms");;
  used_model ← lift (py_get metadata "model" (VStr "N/A"));
  print ("  Model: " +:+ py_str used_model);;
  stateless ← lift (py_get metadata "stateless" (VStr "N/A"));
  print ("  Stateless: " +:+ py_str stateless);;
  node_count ← lift (py_get metadata "node_count" (VStr "N/A"));
  print ("  Node count: " +:+ py_str node_count);;
  timings ← lift (py_get metadata "timings" (VDict []));
  when (py_truthy timings) (
    print (LF +:+ "  Timing Breakdown:");;
    items ← lift (py_items timings);
    for_each (sorted_items items) (λ kv,
      print ("    " +:+ stage_name (fst kv) +:+ ": " +:+ py_str (snd kv) +:+ "ms")));;
  sources ← lift (py_get result "sources" (VList []));
  when (py_truthy sources) (
    print (LF +:+ rule_box);;
    count ← lift (py_len sources);
    print ("Sources (" +:+ pretty count +:+ "):");;
    items ← lift (py_iter sources);
    for_each (enumerate 1 items) (λ isrc,
      filename ← lift (py_get (snd isrc) "filename" (VStr "Unknown"));
      print (LF +:+ "  [" +:+ pretty (fst isrc) +:+ "] " +:+ py_str filename);;
      score ← lift (py_get (snd isrc) "score" (VStr "N/A"));
      score_text ← lift (py_format_3f score);
      print ("      Score: " +:+ score_text);;
      snippet_field ← lift (py_get (snd isrc) "snippet" (VStr ""));
      snippet ← lift (py_slice_to 200 snippet_field);
      print ("      Snippet: " +:+ py_str snippet +:+ "..."))).

(** Lines 213-252 of [query_stateless]: what is done with the response.
    The result is [None] or the decoded response. *)
Definition report_stateless (response : Response) : Py (option value) :=
  if negb (status_code response =? 200) then
    print (LF +:+ "Error: " +:+ pretty (status_code response) +:+ " - "
           +:+ text response);;
    mret None
  else
    result ← response_json response;
    print_result result;;
    mret (Some result).

(** [query_stateless(notebook_id, query, model, top_k, max_sources,
    reranker_enabled, skip_raptor)] *)
Definition query_stateless (notebook_id : value) (query : string)
    (model : option string) (top_k : option Z) (max_sources : Z)
    (reranker_enabled skip_raptor : bool) : Py (option value) :=
  print (LF +:+ rule_eq);;
  print "Stateless Query (No Memory)";;
  print rule_eq;;
  print ("Query: " +:+ query);;
  when (truthy_str model) (print ("Model: " +:+ py_str (value_of_str model)));;
  when (truthy_int top_k) (print ("Top-K: " +:+ py_str (value_of_int top_k)));;
  when (negb reranker_enabled) (print "Reranker: disabled");;
  when (negb skip_raptor) (print "RAPTOR: enabled");;
  let payload :=
    stateless_payload notebook_id query model top_k max_sources
      reranker_enabled skip_raptor in
  base_url ← read BASE_URL;
  headers ← read HEADERS;
  response ← requests_post (base_url +:+ "/api/query") headers payload;
  report_stateless response.

(** The [dict] built at lines 285-295, for one turn. *)
Definition conversational_payload (notebook_id : value) (query session_id : string)
    (model : option string) (max_history : Z) : gmap string value :=
  let payload : gmap string value :=
    <["max_history" := VInt max_history]>
      (<["max_sources" := VInt 2]>
         (<["include_sources" := VBool true]>
            (<["session_id" := VStr session_id]>
               (<["query" := VStr query]>
                  (<["notebook_id" := notebook_id]> ∅))))) in
  if truthy_str model then <["model" := value_of_str model]> payload else payload.

(** Lines 307-313 of [query_conversational]: the printing of a decoded
    response. *)
Definition print_turn (result : value) : Py unit :=
  metadata ← lift (py_get result "metadata" (VDict []));
  answer ← lift (py_get result "response" (VStr "No response"));
  shown ← lift (py_slice_to 500 answer);
  print (LF +:+ "Response: " +:+ py_str shown +:+ "...");;
  history ← lift (py_get metadata "history_messages_used" (VInt 0));
  print (LF +:+ "History used: " +:+ py_str history +:+ " messages");;
  stateless ← lift (py_get metadata "stateless" (VStr "N/A"));
  print ("Stateless: " +:+ py_str stateless);;
  execution_time ← lift (py_get metadata "execution_time_ms" (VStr "N/A"));
  print ("Execution time: " +:+ py_str execution_time +:+ "ms").

(** Lines 303-313 of [query_conversational]: what is done with the
    response of a turn; the [continue] ends the body of the loop. *)
Definition report_turn (response : Response) : Py unit :=
  if negb (status_code response =? 200) then
    print ("Error: " +:+ pretty (status_code response) +:+ " - " +:+ text response)
  else
    result ← response_json response;
    print_turn result.

(** The body of the loop of [query_conversational], for turn [i]. *)
Definition conversational_turn (notebook_id : value) (session_id : string)
    (model : option string) (max_history : Z) (turn : nat * string) : Py unit :=
  let i := fst turn in
  let query := snd turn in
  print (LF +:+ rule_box);;
  print ("Turn " +:+ pretty i +:+ ": " +:+ query);;
  print rule_box;;
  let payload := conversational_payload notebook_id query session_id model max_history in
  base_url ← read BASE_URL;
  headers ← read HEADERS;
  response ← requests_post (base_url +:+ "/api/query") headers payload;
  report_turn response.

(** [query_conversational(notebook_id, queries, model, max_history)] *)
Definition query_conversational (notebook_id : value) (queries : list string)
    (model : option string) (max_history : Z) : Py unit :=
  print (LF +:+ rule_eq);;
  print "Conversational Queries (With Memory)";;
  print rule_eq;;
  session_id ← uuid4_str;
  print ("Session ID: " +:+ session_id);;
  when (truthy_str model) (print ("Model: " +:+ py_str (value_of_str model)));;
  print ("Max History: " +:+ pretty max_history);;
  for_each (enumerate 1 queries)
    (conversational_turn notebook_id session_id model max_history).

(** [parse_args()]: an option that is not given takes its declared
    default; three of the defaults are module globals. *)
Definition parse_args (argv : CommandLine) : Py Namespace :=
  notebook_default ← read NOTEBOOK_ID;
  url_default ← read BASE_URL;
  api_key_default ← read API_KEY;
  mret {| args_model := opt_model argv;
          args_notebook := default notebook_default (opt_notebook argv);
          args_query := opt_query argv;
          args_url := default url_default (opt_url argv);
          args_api_key := default api_key_default (opt_api_key argv);
          args_list_models := opt_list_models argv;
          args_list_notebooks := opt_list_notebooks argv;
          args_no_demo := opt_no_demo argv;
          args_top_k := opt_top_k argv;
          args_max_sources := default 6 (opt_max_sources argv);
          args_no_reranker := opt_no_reranker argv;
          args_include_raptor := opt_include_raptor argv;
          args_max_history := default 5 (opt_max_history argv) |}.

Definition demo_query : string :=
  "What are the key policies mentioned in the documents?".

Definition demo_conversation : list string :=
  [ "What is the work from home policy?";
    "What are the eligibility requirements for it?";
    "Are there any exceptions to this policy?" ].

(** Lines 486-513 of [main]: the demo and the closing banner. *)
Definition run_demo (args : Namespace) (notebook_id : value)
    (reranker_enabled skip_raptor : bool) : Py unit :=
  when (negb (args_no_demo args)) (
    query_stateless notebook_id demo_query (args_model args) (args_top_k args)
      (args_max_sources args) reranker_enabled skip_raptor;;
    query_conversational notebook_id demo_conversation (args_model args)
      (args_max_history args));;
  print (LF +:+ rule_eq);;
  print "Example Complete!";;
  print rule_eq.

(** Lines 465-513 of [main]: the custom query, then the demo.  Each
    [return] of the source ends the branch it sits in. *)
Definition run_queries (args : Namespace) (notebook_id : value) : Py unit :=
  let reranker_enabled := negb (args_no_reranker args) in
  let skip_raptor := negb (args_include_raptor args) in
  if truthy_str (args_query args) then
    query_stateless notebook_id (default "" (args_query args)) (args_model args)
      (args_top_k args) (args_max_sources args) reranker_enabled skip_raptor;;
    if args_no_demo args then
      print (LF +:+ rule_eq);;
      print "Query Complete!";;
      print rule_eq
    else run_demo args notebook_id reranker_enabled skip_raptor
  else run_demo args notebook_id reranker_enabled skip_raptor.

(** Lines 423-432 of [main]: the arguments are parsed and the globals
    reassigned from them. *)
Definition main_configure (argv : CommandLine) : Py Namespace :=
  args ← parse_args argv;
  set_globals (args_url args) (args_api_key args) (make_headers (args_api_key args));;
  mret args.

(** Lines 455-513 of [main]: the choice of the notebook, then the
    queries. *)
Definition after_listing (args : Namespace) (notebooks : value) : Py unit :=
  if negb (py_truthy notebooks) then
    print (LF +:+ "No notebooks found. Please create a notebook first.")
  else
    items ← lift (py_iter notebooks);
    ids ← lift (mapM (λ nb, py_getitem nb "id") items);
    notebook_id ←
      (if negb (py_in (args_notebook args) ids) then
         first ← lift (py_first notebooks);
         id ← lift (py_getitem first "id");
         print (LF +:+ "Specified notebook not found, using: " +:+ py_str id);;
         mret id
       else mret (VStr (args_notebook args)));
    run_queries args notebook_id.

(** Lines 434-453 of [main], up to the listing. *)
Definition main_run (args : Namespace) : Py unit :=
  if args_list_models args then list_models
  else if args_list_notebooks args then list_notebooks;; mret tt
  else
    print rule_eq;;
    print "DBNotebook Query API Example";;
    print rule_eq;;
    base_url ← read BASE_URL;
    print ("API URL: " +:+ base_url);;
    print ("Notebook ID: " +:+ args_notebook args);;
    when (truthy_str (args_model args))
      (print ("Model: " +:+ py_str (value_of_str (args_model args))));;
    notebooks ← list_notebooks;
    after_listing args notebooks.

(** [main()] *)
Definition main (argv : CommandLine) : Py unit :=
  args ← main_configure argv;
  main_run args.

(** The world [main] runs in once the globals are set. *)
Definition configured (argv : CommandLine) (w : World) : World :=
  (main_configure argv w).2.

(** The request [query_stateless] hands to [requests.post], and the one a
    turn of [query_conversational] hands to it. *)
Definition listing_request (w : World) : Request :=
  mkRequest GET (BASE_URL w +:+ "/api/query/notebooks") (HEADERS w) None.

Definition stateless_request (w : World) (notebook_id : value) (query : string)
    (model : option string) (top_k : option Z) (max_sources : Z)
    (reranker_enabled skip_raptor : bool) : Request :=
  mkRequest POST (BASE_URL w +:+ "/api/query") (HEADERS w)
    (Some (stateless_payload notebook_id query model top_k max_sources
             reranker_enabled skip_raptor)).

Definition turn_request (w : World) (notebook_id : value) (session_id : string)
    (model : option string) (max_history : Z) (query : string) : Request :=
  mkRequest POST (BASE_URL w +:+ "/api/query") (HEADERS w)
    (Some (conversational_payload notebook_id query session_id model max_history)).

(** The sparse-payload property in the words of the specification: a
    parameter of [query_stateless] is supplied with a non-default value
    when it differs from the default in the signature ([None], [None],
    [6], [True], [True]); [notebook_id] and [query] have no default and
    are always supplied; no other field can be supplied. *)
Definition supplied_non_default (field : string) (model : option string)
    (top_k : option Z) (max_sources : Z) (reranker_enabled skip_raptor : bool)
  : bool :=
  if String.eqb field "notebook_id" then true
  else if String.eqb field "query" then true
  else if String.eqb field "model" then bool_decide (model ≠ None)
  else if String.eqb field "top_k" then bool_decide (top_k ≠ None)
  else if String.eqb field "max_sources" then negb (max_sources =? 6)
  else if String.eqb field "reranker_enabled" then negb reranker_enabled
  else if String.eqb field "skip_raptor" then negb skip_raptor
  else false.

(** The precedence rule in the words of the specification: the flag,
    else the environment variable, else the built-in default. *)
Definition precedence (flag env : option string) (builtin : string) : string :=
  match flag with
  | Some v => v
  | None =>
      match env with
      | Some v => v
      | None => builtin
      end
  end.

(** *** Sample services and arguments, for the concrete runs *)

(** A service that answers by the method of the request alone: [listing]
    to a GET, [answer] to a POST. *)
Definition service (listing answer : Response) : list Request → Reply :=
  λ history,
    match last history with
    | Some r =>
        Answered (match req_method r with GET => listing | POST => answer end)
    | None => NoAnswer
    end.

Definition hr_notebook : value :=
  VDict [ ("id", VStr "abc"); ("name", VStr "HR Docs");
          ("document_count", VInt 3);
          ("created_at", VStr "2024-01-01T00:00:00Z") ].

Definition listing_of (notebooks : list value) : Response :=
  mkResponse 200 "" (Some (VDict [("notebooks", VList notebooks)])).

Definition failure : Response := mkResponse 500 "Internal Server Error" None.

(** The successful response of the example scenario; the score is the
    binary64 nearest to 0.87. *)
Definition answer_complete : Response :=
  mkResponse 200 ""
    (Some (VDict
       [ ("response", VStr "Employees may work from home.");
         ("metadata",
          VDict [ ("execution_time_ms", VInt 120); ("model", VStr "gpt-4o");
                  ("stateless", VBool true); ("node_count", VInt 4) ]);
         ("sources",
          VList [ VDict [ ("filename", VStr "handbook.pdf");
                          ("score", VFloat (S754_finite false 7836263351624663 (-53)));
                          ("snippet", VStr "Employees may...") ] ]) ])).

(** The same response with the [score] of its source left out. *)
Definition answer_without_score : Response :=
  mkResponse 200 ""
    (Some (VDict
       [ ("response", VStr "Employees may work from home.");
         ("metadata",
          VDict [ ("execution_time_ms", VInt 120); ("model", VStr "gpt-4o");
                  ("stateless", VBool true); ("node_count", VInt 4) ]);
         ("sources",
          VList [ VDict [ ("filename", VStr "handbook.pdf");
                          ("snippet", VStr "Employees may...") ] ]) ])).

Definition sample_uuid4 (n : nat) : string := "session-" +:+ pretty n.

(** No sample response holds a float that is printed with [str]. *)
Definition sample_float_repr (x : spec_float) : string := "<float>".

(** The command line without any option, and what [parse_args] makes of
    it when no environment variable is set. *)
Definition no_options : CommandLine :=
  {| opt_model := None; opt_notebook := None; opt_query := None; opt_url := None;
     opt_api_key := None; opt_list_models := false; opt_list_notebooks := false;
     opt_no_demo := false; opt_top_k := None; opt_max_sources := None;
     opt_no_reranker := false; opt_include_raptor := false;
     opt_max_history := None |}.

Definition default_namespace : Namespace :=
  {| args_model := None;
     args_notebook := "18ee0c23-a2ce-4eb2-a56c-62a12dee964a";
     args_query := None;
     args_url := "http://localhost:7860";
     args_api_key := "dbn_00000000000000000000000000000001";
     args_list_models := false; args_list_notebooks := false;
     args_no_demo := false; args_top_k := None; args_max_sources := 6;
     args_no_reranker := false; args_include_raptor := false;
     args_max_history := 5 |}.

(** *** Relations between the world before and after a step *)

Definition same_globals (w w' : World) : Prop :=
  BASE_URL w' = BASE_URL w ∧ API_KEY w' = API_KEY w ∧
  NOTEBOOK_ID w' = NOTEBOOK_ID w ∧ HEADERS w' = HEADERS w.

(** The step sends exactly the requests [new], in that order; it may
    print; it leaves the globals and the count of UUIDs alone. *)
Definition effect (new : list Request) (w w' : World) : Prop :=
  same_globals w w' ∧ uuids_drawn w' = uuids_drawn w ∧
  stdout w `prefix_of` stdout w' ∧ sent w' = sent w ++ new.

(** The step only prints. *)
Definition quiet : relation World := effect [].

(** The step sends only requests that satisfy [P]; it may print and draw
    UUIDs; it leaves the globals alone. *)
Definition talks (P : Request → Prop) (w w' : World) : Prop :=
  same_globals w w' ∧ stdout w `prefix_of` stdout w' ∧
  ∃ new, sent w' = sent w ++ new ∧ Forall P new.

(** [BASE_URL] and [HEADERS] have the values [base] and [hdrs]. *)
Definition settled (base : string) (hdrs : gmap string string) (w : World) : Prop :=
  BASE_URL w = base ∧ HEADERS w = hdrs.

(** The computation keeps the relation [R], from any world where the
    globals are settled. *)
Definition keeps (R : relation World) (base : string) (hdrs : gmap string string)
    {A} (m : Py A) : Prop :=
  ∀ w, settled base hdrs w → R w (m w).2.

(** What [run_queries] sends for a given notebook id satisfies [P]. *)
Definition admits_queries (P : Request → Prop) (base : string)
    (hdrs : gmap string string) (args : Namespace) (notebook_id : value) : Prop :=
  (∀ query,
     P (mkRequest POST (base +:+ "/api/query") hdrs
          (Some (stateless_payload notebook_id query (args_model args)
                   (args_top_k args) (args_max_sources args)
                   (negb (args_no_reranker args))
                   (negb (args_include_raptor args)))))) ∧
  (∀ session_id query,
     P (mkRequest POST (base +:+ "/api/query") hdrs
          (Some (conversational_payload notebook_id query session_id
                   (args_model args) (args_max_history args))))).

(** A request that, if it is a POST, carries [id] as its [notebook_id]. *)
Definition carries (id : value) (r : Request) : Prop :=
  req_method r = POST →
  ∃ body, req_json r = Some body ∧ body !! "notebook_id" = Some id.

(** A request to one of the two endpoints under [url], authenticated
    with [key]. *)
Definition addressed (url key : string) (r : Request) : Prop :=
  (req_url r = url +:+ "/api/query" ∨ req_url r = url +:+ "/api/query/notebooks")
  ∧ req_headers r !! "X-API-Key" = Some key.

(** The line that reports the substitution of the notebook [id]. *)
Definition substitution_notice (id_text : string) : string :=
  LF +:+ "Specified notebook not found, using: " +:+ id_text.

(** Two worlds that differ in what has been printed only. *)
Definition alike (w1 w2 : World) : Prop :=
  same_globals w1 w2 ∧ sent w2 = sent w1 ∧ uuids_drawn w2 = uuids_drawn w1.

(** The computation does not depend on what has been printed. *)
Definition blind {A} (m : Py A) : Prop :=
  ∀ w1 w2, alike w1 w2 → (m w1).1 = (m w2).1 ∧ alike (m w1).2 (m w2).2.

(** *** The responses the presentation code can print *)

(** The two blocks of [print_result] that loop, and the body of the
    second loop, as [print_result] has them: lines 235-239, lines
    243-250 and lines 247-250 of [query_stateless]. *)
Definition print_timings (timings : value) : Py unit :=
  when (py_truthy timings) (
    print (LF +:+ "  Timing Breakdown:");;
    items ← lift (py_items timings);
    for_each (sorted_items items) (λ kv,
      print ("    " +:+ stage_name (fst kv) +:+ ": " +:+ py_str (snd kv) +:+ "ms"))).

Definition print_source (isrc : nat * value) : Py unit :=
  filename ← lift (py_get (snd isrc) "filename" (VStr "Unknown"));
  print (LF +:+ "  [" +:+ pretty (fst isrc) +:+ "] " +:+ py_str filename);;
  score ← lift (py_get (snd isrc) "score" (VStr "N/A"));
  score_text ← lift (py_format_3f score);
  print ("      Score: " +:+ score_text);;
  snippet_field ← lift (py_get (snd isrc) "snippet" (VStr ""));
  snippet ← lift (py_slice_to 200 snippet_field);
  print ("      Snippet: " +:+ py_str snippet +:+ "...").

Definition print_sources (sources : value) : Py unit :=
  when (py_truthy sources) (
    print (LF +:+ rule_box);;
    count ← lift (py_len sources);
    print ("Sources (" +:+ pretty count +:+ "):");;
    items ← lift (py_iter sources);
    for_each (enumerate 1 items) print_source).

(** A value the format [.3f] accepts: a float, a [bool], or an integer
    that fits a float. *)
Definition formattable (v : value) : bool :=
  match v with
  | VFloat _ | VBool _ => true
  | VInt n => match float_of_int n with Returns _ => true | Raises _ => false end
  | _ => false
  end.

(** A value that can be sliced: a string or a list. *)
Definition sliceable (v : value) : bool :=
  match v with
  | VStr _ | VList _ => true
  | _ => false
  end.

(** A source entry [print_result] can print: an object whose [score] is
    there and formattable and whose [snippet], if there, is sliceable. *)
Definition presentable_source (src : value) : bool :=
  match src with
  | VDict d =>
      formattable (default (VStr "N/A") (dict_lookup "score" d))
      && sliceable (default (VStr "") (dict_lookup "snippet" d))
  | _ => false
  end.

(** A decoded response [print_result] can print: an object whose
    [metadata], if there, is an object; whose [timings], if there, are
    falsy or an object; and whose [sources], if there, are falsy or a
    list of presentable entries. *)
Definition presentable (result : value) : bool :=
  match result with
  | VDict d =>
      match default (VDict []) (dict_lookup "metadata" d) with
      | VDict m =>
          (let timings := default (VDict []) (dict_lookup "timings" m) in
           negb (py_truthy timings)
           || match timings with VDict _ => true | _ => false end)
          && (let sources := default (VList []) (dict_lookup "sources" d) in
              negb (py_truthy sources)
              || match sources with
                 | VList l => forallb presentable_source l
                 | _ => false
                 end)
      | _ => false
      end
  | _ => false
  end.

(** A decoded response [print_turn] can print: an object whose
    [metadata], if there, is an object and whose [response], if there,
    is sliceable. *)
Definition presentable_turn (result : value) : bool :=
  match result with
  | VDict d =>
      match default (VDict []) (dict_lookup "metadata" d) with
      | VDict _ => sliceable (default (VStr "No response") (dict_lookup "response" d))
      | _ => false
      end
  | _ => false
  end.

(** A response a turn of the conversation gets over: a failure, or a
    success whose body decodes to a response [print_turn] can print. *)
Definition tolerated (resp : Response) : bool :=
  negb (status_code resp =? 200)
  || match json_body resp with
     | Some result => presentable_turn result
     | None => false
     end.

(** A listed notebook [print_notebook] can print: an object with the
    four fields. *)
Definition printable_notebook (nb : value) : bool :=
  match nb with
  | VDict d =>
      bool_decide (is_Some (dict_lookup "id" d))
      && bool_decide (is_Some (dict_lookup "name" d))
      && bool_decide (is_Some (dict_lookup "document_count" d))
      && bool_decide (is_Some (dict_lookup "created_at" d))
  | _ => false
  end.

(** A value of the [notebooks] field [report_notebooks] gets through: a
    list of printable notebooks (or an empty string or object, on which
    the loop does nothing). *)
Definition printable_listing (notebooks : value) : bool :=
  match notebooks with
  | VList l => forallb printable_notebook l
  | VStr s => String.eqb s ""
  | VDict d => match d with [] => true | _ => false end
  | _ => false
  end.

(** *** What [main] prints and sends *)

(** The lines of the loop of [list_models], for a catalogue of models by
    provider. *)
Definition catalogue_lines (catalogue : list (string * list string)) : list string :=
  flat_map (λ pm, (LF +:+ str_upper (fst pm) +:+ ":")
                    :: map (λ model, "  - " +:+ model) (snd pm)) catalogue.

(** The requests of the demo, in the order of lines 489-509: the
    stateless query, then the turns of the conversation. *)
Definition planned_demo (args : Namespace) (notebook_id : value) (w : World)
  : list Request :=
  if args_no_demo args then []
  else
    stateless_request w notebook_id demo_query (args_model args) (args_top_k args)
      (args_max_sources args) (negb (args_no_reranker args))
      (negb (args_include_raptor args))
    :: map (turn_request w notebook_id (uuid4 (uuids_drawn w)) (args_model args)
              (args_max_history args)) demo_conversation.

(** The requests of [run_queries], in order: the custom query when one
    is given, then the demo. *)
Definition planned_queries (args : Namespace) (notebook_id : value) (w : World)
  : list Request :=
  (if truthy_str (args_query args)
   then [stateless_request w notebook_id (default "" (args_query args))
           (args_model args) (args_top_k args) (args_max_sources args)
           (negb (args_no_reranker args)) (negb (args_include_raptor args))]
   else [])
  ++ planned_demo args notebook_id w.

(** *** The timing breakdown *)

(** The line of one timing, line 239 of [query_stateless]. *)
Definition timing_line (kv : string * value) : string :=
  "    " +:+ stage_name (fst kv) +:+ ": " +:+ py_str (snd kv) +:+ "ms".

(** The key of the first item is not above the key of the second, in
    code-point order. *)
Definition key_le (a b : string * value) : Prop :=
  String.leb (fst a) (fst b) = true.

(** *** Further samples *)

(** A service that gives the same answer to every request, and one that
    cannot be reached. *)
Definition steady (answer : Response) : list Request → Reply :=
  λ _, Answered answer.
Definition unreachable : list Request → Reply := λ _, NoAnswer.

(** A response with the status 200 whose body is not JSON. *)
Definition not_json : Response := mkResponse 200 "<html>Bad Gateway</html>" None.

(** The command line with [--notebook], [--list-models] and
    [--list-notebooks] as given and no other option, and what
    [parse_args] makes of it when no environment variable is set. *)
Definition options_with (notebook : option string)
    (list_models list_notebooks : bool) : CommandLine :=
  {| opt_model := None; opt_notebook := notebook; opt_query := None;
     opt_url := None; opt_api_key := None; opt_list_models := list_models;
     opt_list_notebooks := list_notebooks; opt_no_demo := false;
     opt_top_k := None; opt_max_sources := None; opt_no_reranker := false;
     opt_include_raptor := false; opt_max_history := None |}.

Definition namespace_with (notebook : option string)
    (list_models list_notebooks : bool) : Namespace :=
  {| args_model := None;
     args_notebook := default "18ee0c23-a2ce-4eb2-a56c-62a12dee964a" notebook;
     args_query := None;
     args_url := "http://localhost:7860";
     args_api_key := "dbn_00000000000000000000000000000001";
     args_list_models := list_models; args_list_notebooks := list_notebooks;
     args_no_demo := false; args_top_k := None; args_max_sources := 6;
     args_no_reranker := false; args_include_raptor := false;
     args_max_history := 5 |}.

(* ================================================================== *)
(** ** The payload of a stateless query *)

Lemma stateless_payload_fixed notebook_id query model top_k max_sources rr sr :
  let payload := stateless_payload notebook_id query model top_k max_sources rr sr in
  payload !! "notebook_id" = Some notebook_id ∧
  payload !! "query" = Some (VStr query) ∧
  payload !! "include_sources" = Some (VBool true) ∧
  payload !! "max_sources" = Some (VInt max_sources).
Proof.
  unfold stateless_payload.
  destruct (truthy_str model), (truthy_int top_k), rr, sr; simpl;
    repeat split; by simplify_map_eq.
Qed.

Lemma stateless_payload_model notebook_id query model top_k max_sources rr sr :
  stateless_payload notebook_id query model top_k max_sources rr sr !! "model" =
  if truthy_str model then Some (value_of_str model) else None.
Proof.
  unfold stateless_payload.
  destruct (truthy_str model), (truthy_int top_k), rr, sr; simpl; by simplify_map_eq.
Qed.

Lemma stateless_payload_top_k notebook_id query model top_k max_sources rr sr :
  stateless_payload notebook_id query model top_k max_sources rr sr !! "top_k" =
  if truthy_int top_k then Some (value_of_int top_k) else None.
Proof.
  unfold stateless_payload.
  destruct (truthy_str model), (truthy_int top_k), rr, sr; simpl; by simplify_map_eq.
Qed.

Lemma stateless_payload_reranker notebook_id query model top_k max_sources rr sr :
  stateless_payload notebook_id query model top_k max_sources rr sr
    !! "reranker_enabled" = if rr then None else Some (VBool false).
Proof.
  unfold stateless_payload.
  destruct (truthy_str model), (truthy_int top_k), rr, sr; simpl; by simplify_map_eq.
Qed.

Lemma stateless_payload_raptor notebook_id query model top_k max_sources rr sr :
  stateless_payload notebook_id query model top_k max_sources rr sr
    !! "skip_raptor" = if sr then None else Some (VBool false).
Proof.
  unfold stateless_payload.
  destruct (truthy_str model), (truthy_int top_k), rr, sr; simpl; by simplify_map_eq.
Qed.

(** The keys of the payload: four fixed ones, and one for each optional
    parameter whose test at lines 198-205 succeeds. *)
Lemma stateless_payload_keys notebook_id query model top_k max_sources rr sr field :
  is_Some (stateless_payload notebook_id query model top_k max_sources rr sr !! field)
  ↔ field = "notebook_id" ∨ field = "query" ∨ field = "include_sources"
    ∨ field = "max_sources"
    ∨ (field = "model" ∧ truthy_str model = true)
    ∨ (field = "top_k" ∧ truthy_int top_k = true)
    ∨ (field = "reranker_enabled" ∧ rr = false)
    ∨ (field = "skip_raptor" ∧ sr = false).
Proof.
  pose proof (stateless_payload_fixed notebook_id query model top_k max_sources rr sr)
    as (Hn & Hq & Hi & Hm).
  destruct (decide (field = "notebook_id")) as [->|?]; [rewrite Hn; naive_solver|].
  destruct (decide (field = "query")) as [->|?]; [rewrite Hq; naive_solver|].
  destruct (decide (field = "include_sources")) as [->|?]; [rewrite Hi; naive_solver|].
  destruct (decide (field = "max_sources")) as [->|?]; [rewrite Hm; naive_solver|].
  destruct (decide (field = "model")) as [->|?].
  { rewrite stateless_payload_model. destruct (truthy_str model); naive_solver. }
  destruct (decide (field = "top_k")) as [->|?].
  { rewrite stateless_payload_top_k. destruct (truthy_int top_k); naive_solver. }
  destruct (decide (field = "reranker_enabled")) as [->|?].
  { rewrite stateless_payload_reranker. destruct rr; naive_solver. }
  destruct (decide (field = "skip_raptor")) as [->|?].
  { rewrite stateless_payload_raptor. destruct sr; naive_solver. }
  assert (stateless_payload notebook_id query model top_k max_sources rr sr !! field
          = None) as ->.
  { unfold stateless_payload.
    destruct (truthy_str model), (truthy_int top_k), rr, sr; simpl;
      by rewrite ?lookup_insert_ne, lookup_empty. }
  split; [by intros [? ?] | naive_solver].
Qed.

(* ================================================================== *)
(** ** Running a computation *)

Lemma run_ret {A B} (a : A) (f : A → Py B) w : (mret a ≫= f) w = f a w.
Proof. reflexivity. Qed.

Lemma run_print {B} line (f : unit → Py B) w :
  (print line ≫= f) w = f tt (with_line line w).
Proof. reflexivity. Qed.

Lemma run_read {A B} (field : World → A) (f : A → Py B) w :
  (read field ≫= f) w = f (field w) w.
Proof. reflexivity. Qed.

Lemma run_lift {A B} (o : outcome A) (f : A → Py B) w :
  (lift o ≫= f) w = match o with Returns a => f a w | Raises e => (Raises e, w) end.
Proof. by destruct o. Qed.

Lemma run_returns {A B} (m : Py A) (f : A → Py B) w a w' :
  m w = (Returns a, w') → (m ≫= f) w = f a w'.
Proof. intros Hm. unfold mbind, Py_bind. by rewrite Hm. Qed.

Lemma run_raises {A B} (m : Py A) (f : A → Py B) w e w' :
  m w = (Raises e, w') → (m ≫= f) w = (Raises e, w').
Proof. intros Hm. unfold mbind, Py_bind. by rewrite Hm. Qed.

Lemma run_when_print {B} (cond : bool) line (f : unit → Py B) w :
  (when cond (print line) ≫= f) w = f tt (if cond then with_line line w else w).
Proof. by destruct cond. Qed.

Lemma run_send {B} r (f : Response → Py B) w :
  (send r ≫= f) w =
  match server (sent w ++ [r]) with
  | Answered resp => f resp (with_request r w)
  | NoAnswer => (Raises ConnectionError, with_request r w)
  end.
Proof. unfold mbind, Py_bind, send. by destruct (server _). Qed.

(* ================================================================== *)
(** ** Relations every step keeps

    [R] relates the world before a step to the world after it; [P] is
    what [R] asks of a request that is sent.  The script's functions keep
    [R] as soon as [print] and [send] do.  [base] and [hdrs] are the
    values of the globals [BASE_URL] and [HEADERS] while they run. *)

Section Discipline.

Variable R : relation World.
Variable P : Request → Prop.
Variable base : string.
Variable hdrs : gmap string string.

Context `{!PreOrder R}.
Hypothesis R_globals : ∀ w w', R w w' → same_globals w w'.
Hypothesis R_print : ∀ line w, R w (with_line line w).
Hypothesis R_send : ∀ r w, P r → R w (with_request r w).

Local Abbreviation keeps := (keeps R base hdrs).
Local Abbreviation admits_queries := (admits_queries P base hdrs).

Lemma R_settled w w' : R w w' → settled base hdrs w → settled base hdrs w'.
Proof.
  intros (Hb & _ & _ & Hh)%R_globals [? ?]. split; congruence.
Qed.

Lemma keeps_ret {A} (a : A) : keeps (mret a).
Proof. intros w _. reflexivity. Qed.

Lemma keeps_lift {A} (o : outcome A) : keeps (lift o).
Proof. intros w _. reflexivity. Qed.

Lemma keeps_print line : keeps (print line).
Proof. intros w _. apply R_print. Qed.

Lemma keeps_send r : P r → keeps (send r).
Proof.
  intros HP w _. unfold send. destruct (server _); by apply R_send.
Qed.

Lemma keeps_bind {A B} (m : Py A) (f : A → Py B) :
  keeps m → (∀ a, keeps (f a)) → keeps (m ≫= f).
Proof.
  intros Hm Hf w Hw. specialize (Hm w Hw). unfold mbind, Py_bind.
  destruct (m w) as [[a|e] w1]; simpl in *; [|done].
  etrans; [exact Hm|]. apply Hf. by eapply R_settled.
Qed.

Lemma keeps_read_base {B} (f : string → Py B) :
  keeps (f base) → keeps (read BASE_URL ≫= f).
Proof. intros Hf w Hw. rewrite run_read, (proj1 Hw). by apply Hf. Qed.

Lemma keeps_read_headers {B} (f : gmap string string → Py B) :
  keeps (f hdrs) → keeps (read HEADERS ≫= f).
Proof. intros Hf w Hw. rewrite run_read, (proj2 Hw). by apply Hf. Qed.

Lemma keeps_if {A} (cond : bool) (m1 m2 : Py A) :
  keeps m1 → keeps m2 → keeps (if cond then m1 else m2).
Proof. by destruct cond. Qed.

Lemma keeps_when cond (body : Py unit) : keeps body → keeps (when cond body).
Proof. intros. apply keeps_if; [done | apply keeps_ret]. Qed.

Lemma keeps_for_each {A} (l : list A) (body : A → Py unit) :
  (∀ x, keeps (body x)) → keeps (for_each l body).
Proof.
  intros Hbody. induction l as [|x l IH]; simpl.
  - apply keeps_ret.
  - by apply keeps_bind.
Qed.

Lemma keeps_response_json resp : keeps (response_json resp).
Proof. unfold response_json. destruct (json_body resp); [apply keeps_ret | apply keeps_lift]. Qed.

(** One rule of the above, chosen by the shape of the computation. *)
Ltac keeps_step :=
  lazymatch goal with
  | |- keeps (mret _) => apply keeps_ret
  | |- keeps (lift _) => apply keeps_lift
  | |- keeps (print _) => apply keeps_print
  | |- keeps (response_json _) => apply keeps_response_json
  | |- keeps (read BASE_URL ≫= _) => apply keeps_read_base
  | |- keeps (read HEADERS ≫= _) => apply keeps_read_headers
  | |- keeps (when _ _) => apply keeps_when
  | |- keeps (if _ then _ else _) => apply keeps_if
  | |- keeps (for_each _ _) => apply keeps_for_each; intros ?
  | |- keeps (_ ≫= _) => apply keeps_bind; [|intros ?]
  end.

Lemma keeps_list_models : keeps list_models.
Proof. unfold list_models. repeat keeps_step. Qed.

Lemma keeps_print_notebook nb : keeps (print_notebook nb).
Proof. unfold print_notebook. repeat keeps_step. Qed.

Lemma keeps_report_notebooks response : keeps (report_notebooks response).
Proof. unfold report_notebooks. repeat keeps_step. apply keeps_print_notebook. Qed.

Lemma keeps_list_notebooks :
  P (mkRequest GET (base +:+ "/api/query/notebooks") hdrs None) →
  keeps list_notebooks.
Proof.
  intros HP. unfold list_notebooks, requests_get. repeat keeps_step.
  - by apply keeps_send.
  - apply keeps_report_notebooks.
Qed.

Lemma keeps_print_result result : keeps (print_result result).
Proof. unfold print_result. repeat keeps_step. Qed.

Lemma keeps_print_turn result : keeps (print_turn result).
Proof. unfold print_turn. repeat keeps_step. Qed.

Lemma keeps_report_stateless response : keeps (report_stateless response).
Proof. unfold report_stateless. repeat keeps_step. apply keeps_print_result. Qed.

Lemma keeps_report_turn response : keeps (report_turn response).
Proof. unfold report_turn. repeat keeps_step. apply keeps_print_turn. Qed.

Lemma keeps_query_stateless notebook_id query model top_k max_sources rr sr :
  P (mkRequest POST (base +:+ "/api/query") hdrs
       (Some (stateless_payload notebook_id query model top_k max_sources rr sr))) →
  keeps (query_stateless notebook_id query model top_k max_sources rr sr).
Proof.
  intros HP. unfold query_stateless, requests_post. repeat keeps_step.
  - by apply keeps_send.
  - apply keeps_report_stateless.
Qed.

Lemma keeps_conversational_turn notebook_id session_id model max_history turn :
  P (mkRequest POST (base +:+ "/api/query") hdrs
       (Some (conversational_payload notebook_id (snd turn) session_id model
                max_history))) →
  keeps (conversational_turn notebook_id session_id model max_history turn).
Proof.
  intros HP. unfold conversational_turn, requests_post. repeat keeps_step.
  - by apply keeps_send.
  - apply keeps_report_turn.
Qed.

Lemma keeps_uuid4_str : (∀ w, R w (with_uuid w)) → keeps uuid4_str.
Proof. intros HR w _. apply HR. Qed.

Lemma keeps_query_conversational notebook_id queries model max_history :
  (∀ w, R w (with_uuid w)) →
  (∀ session_id query,
     P (mkRequest POST (base +:+ "/api/query") hdrs
          (Some (conversational_payload notebook_id query session_id model
                   max_history)))) →
  keeps (query_conversational notebook_id queries model max_history).
Proof.
  intros HR HP. unfold query_conversational. repeat keeps_step.
  - by apply keeps_uuid4_str.
  - by apply keeps_conversational_turn.
Qed.

Lemma keeps_run_demo args notebook_id :
  (∀ w, R w (with_uuid w)) →
  admits_queries args notebook_id →
  keeps (run_demo args notebook_id (negb (args_no_reranker args))
           (negb (args_include_raptor args))).
Proof.
  intros HR [HP1 HP2]. unfold run_demo. repeat keeps_step.
  - by apply keeps_query_stateless.
  - by apply keeps_query_conversational.
Qed.

Lemma keeps_run_queries args notebook_id :
  (∀ w, R w (with_uuid w)) →
  admits_queries args notebook_id →
  keeps (run_queries args notebook_id).
Proof.
  intros HR HP. unfold run_queries. cbv zeta. repeat keeps_step.
  - apply keeps_query_stateless, HP.
  - by apply keeps_run_demo.
  - by apply keeps_run_demo.
Qed.

Lemma keeps_after_listing args notebooks :
  (∀ w, R w (with_uuid w)) →
  (∀ notebook_id, admits_queries args notebook_id) →
  keeps (after_listing args notebooks).
Proof.
  intros HR HP. unfold after_listing. repeat keeps_step.
  by apply keeps_run_queries.
Qed.

Lemma keeps_main_run args :
  (∀ w, R w (with_uuid w)) →
  P (mkRequest GET (base +:+ "/api/query/notebooks") hdrs None) →
  (∀ notebook_id, admits_queries args notebook_id) →
  keeps (main_run args).
Proof.
  intros HR HG HP. unfold main_run. repeat keeps_step.
  - apply keeps_list_models.
  - by apply keeps_list_notebooks.
  - by apply keeps_list_notebooks.
  - by apply keeps_after_listing.
Qed.

End Discipline.

(* ================================================================== *)
(** ** The three relations *)

Lemma same_globals_refl w : same_globals w w.
Proof. by repeat split. Qed.

Lemma same_globals_trans w1 w2 w3 :
  same_globals w1 w2 → same_globals w2 w3 → same_globals w1 w3.
Proof. unfold same_globals. intros (?&?&?&?) (?&?&?&?). repeat split; congruence. Qed.

Lemma effect_refl w : effect [] w w.
Proof.
  repeat split; try done. by rewrite app_nil_r.
Qed.

Lemma effect_trans a b w1 w2 w3 :
  effect a w1 w2 → effect b w2 w3 → effect (a ++ b) w1 w3.
Proof.
  intros (Hg1 & Hu1 & Ho1 & Hs1) (Hg2 & Hu2 & Ho2 & Hs2). repeat split.
  - destruct Hg1, Hg2; congruence.
  - destruct Hg1 as (?&?&?), Hg2 as (?&?&?); congruence.
  - destruct Hg1 as (?&?&?&?), Hg2 as (?&?&?&?); congruence.
  - destruct Hg1 as (?&?&?&?), Hg2 as (?&?&?&?); congruence.
  - congruence.
  - by etrans.
  - by rewrite Hs2, Hs1, app_assoc.
Qed.

#[global] Instance quiet_preorder : PreOrder quiet.
Proof.
  split.
  - intros w. apply effect_refl.
  - intros w1 w2 w3 H1 H2. apply (effect_trans [] [] _ _ _ H1 H2).
Qed.

Lemma quiet_line line w : quiet w (with_line line w).
Proof.
  repeat split; simpl; try done.
  - by apply prefix_app_r.
  - by rewrite app_nil_r.
Qed.

Lemma effect_request r w : effect [r] w (with_request r w).
Proof. by repeat split. Qed.

Lemma quiet_globals w w' : quiet w w' → same_globals w w'.
Proof. by intros [? _]. Qed.

#[global] Instance talks_preorder P : PreOrder (talks P).
Proof.
  split.
  - intros w. split; [apply same_globals_refl|]. split; [done|].
    exists []. by rewrite app_nil_r.
  - intros w1 w2 w3 (Hg1 & Ho1 & n1 & Hs1 & HP1) (Hg2 & Ho2 & n2 & Hs2 & HP2).
    split; [by eapply same_globals_trans|]. split; [by etrans|].
    exists (n1 ++ n2). split; [by rewrite Hs2, Hs1, app_assoc|].
    by apply Forall_app.
Qed.

Lemma effect_talks P new w w' : effect new w w' → Forall P new → talks P w w'.
Proof. intros (? & _ & ? & ?) ?. split; [done|]. split; [done|]. by exists new. Qed.

Lemma talks_globals P w w' : talks P w w' → same_globals w w'.
Proof. by intros [? _]. Qed.

Lemma talks_line P line w : talks P w (with_line line w).
Proof. eapply effect_talks; [apply quiet_line | done]. Qed.

Lemma talks_request P r w : P r → talks P w (with_request r w).
Proof. intros. eapply effect_talks; [apply effect_request | by constructor]. Qed.

Lemma talks_uuid P w : talks P w (with_uuid w).
Proof.
  split; [by repeat split|]. split; [done|].
  exists []. simpl. by rewrite app_nil_r.
Qed.


Lemma quiet_if_line (cond : bool) line w w' :
  quiet w w' → quiet w (if cond then with_line line w' else w').
Proof.
  intros H. destruct cond; [|done]. etrans; [exact H | apply quiet_line].
Qed.

Lemma quiet_then_line line w w' : quiet w w' → quiet w (with_line line w').
Proof. intros H. etrans; [exact H | apply quiet_line]. Qed.

(** Worlds reached by printing only. *)
Ltac quiet_world :=
  repeat first [ apply quiet_if_line | apply quiet_then_line ]; reflexivity.

(* ================================================================== *)
(** ** What each function of the script does *)

(** [query_stateless] prints its banner, sends one request and hands the
    response to [report_stateless]. *)
Lemma query_stateless_run notebook_id query model top_k max_sources rr sr w :
  ∃ wb, quiet w wb ∧
    query_stateless notebook_id query model top_k max_sources rr sr w =
    (send (stateless_request w notebook_id query model top_k max_sources rr sr)
       ≫= report_stateless) wb.
Proof.
  unfold query_stateless, requests_post, stateless_request. cbv zeta.
  rewrite !run_print, !run_when_print, !run_read.
  set (wb := if negb sr then _ else _).
  assert (quiet w wb) as Hq by (subst wb; quiet_world).
  clearbody wb. exists wb. split; [done|].
  destruct Hq as ((-> & _ & _ & ->) & _). done.
Qed.

Lemma conversational_turn_run notebook_id session_id model max_history turn w :
  ∃ wb, quiet w wb ∧
    conversational_turn notebook_id session_id model max_history turn w =
    (send (turn_request w notebook_id session_id model max_history (snd turn))
       ≫= report_turn) wb.
Proof.
  unfold conversational_turn, requests_post, turn_request. cbv zeta.
  rewrite !run_print, !run_read.
  set (wb := with_line rule_box _).
  assert (quiet w wb) as Hq by (subst wb; quiet_world).
  clearbody wb. exists wb. split; [done|].
  destruct Hq as ((-> & _ & _ & ->) & _). done.
Qed.

Lemma report_stateless_quiet resp w : quiet w (report_stateless resp w).2.
Proof.
  by apply (keeps_report_stateless quiet (BASE_URL w) (HEADERS w)
              quiet_globals quiet_line).
Qed.

Lemma report_turn_quiet resp w : quiet w (report_turn resp w).2.
Proof.
  by apply (keeps_report_turn quiet (BASE_URL w) (HEADERS w)
              quiet_globals quiet_line).
Qed.

(** A request followed by a step that only prints. *)
Lemma send_then_quiet {B} r (k : Response → Py B) w :
  (∀ resp w', quiet w' (k resp w').2) → effect [r] w ((send r ≫= k) w).2.
Proof.
  intros Hk. rewrite run_send. destruct (server _).
  - apply (effect_trans [r] [] _ (with_request r w)); [apply effect_request|].
    apply Hk.
  - apply effect_request.
Qed.

Lemma query_stateless_effect notebook_id query model top_k max_sources rr sr w :
  effect [stateless_request w notebook_id query model top_k max_sources rr sr] w
    (query_stateless notebook_id query model top_k max_sources rr sr w).2.
Proof.
  destruct (query_stateless_run notebook_id query model top_k max_sources rr sr w)
    as (wb & Hq & ->).
  apply (effect_trans [] [_] _ wb); [exact Hq|].
  apply send_then_quiet, report_stateless_quiet.
Qed.

Lemma conversational_turn_effect notebook_id session_id model max_history turn w :
  effect [turn_request w notebook_id session_id model max_history (snd turn)] w
    (conversational_turn notebook_id session_id model max_history turn w).2.
Proof.
  destruct (conversational_turn_run notebook_id session_id model max_history turn w)
    as (wb & Hq & ->).
  apply (effect_trans [] [_] _ wb); [exact Hq|].
  apply send_then_quiet, report_turn_quiet.
Qed.

Lemma turn_request_globals w w' notebook_id session_id model max_history query :
  same_globals w w' →
  turn_request w' notebook_id session_id model max_history query =
  turn_request w notebook_id session_id model max_history query.
Proof. intros (Hb & _ & _ & Hh). unfold turn_request. by rewrite Hb, Hh. Qed.

(** The loop of [query_conversational]: it sends the requests of the
    first [n] turns, in order; [n] is the number of turns when the loop
    ends normally, and at least one when there is a turn at all. *)
Lemma turns_effect notebook_id session_id model max_history
    (turns : list (nat * string)) w :
  let loop := for_each turns
                (conversational_turn notebook_id session_id model max_history) in
  ∃ n, (n ≤ length turns)%nat ∧ (turns ≠ [] → (0 < n)%nat) ∧
    effect (map (turn_request w notebook_id session_id model max_history)
              (take n (map snd turns))) w (loop w).2 ∧
    ((loop w).1 = Returns tt → n = length turns).
Proof.
  simpl. revert w. induction turns as [|turn turns IH]; intros w.
  - exists 0%nat. repeat split; try done. apply effect_refl.
  - pose proof (conversational_turn_effect notebook_id session_id model
                  max_history turn w) as Hturn.
    simpl. unfold mbind, Py_bind.
    destruct (conversational_turn _ _ _ _ turn w) as [[[]|e] w1]; simpl in *.
    + destruct (IH w1) as (n & Hn & _ & Heff & Hret).
      exists (S n). split; [lia|]. split; [lia|]. split.
      * simpl.
        assert (∀ q, turn_request w1 notebook_id session_id model max_history q
                     = turn_request w notebook_id session_id model max_history q)
          as Hreq by (intros q; apply turn_request_globals, Hturn).
        rewrite (List.map_ext _ _ Hreq) in Heff.
        apply (effect_trans [_] _ _ w1 _ Hturn Heff).
      * intros Hr. by rewrite (Hret Hr).
    + exists 1%nat. split; [lia|]. split; [lia|]. split; [|done].
      done.
Qed.

Lemma query_stateless_sent notebook_id query model top_k max_sources rr sr w :
  sent (query_stateless notebook_id query model top_k max_sources rr sr w).2 =
  sent w ++ [stateless_request w notebook_id query model top_k max_sources rr sr].
Proof. apply query_stateless_effect. Qed.

(* ================================================================== *)
(** ** The stateless query executor *)

(** C1 (as amended).  Every call of [query_stateless] transmits one
    request, and a field is present in its JSON body if and only if it is
    one of the four fields the function always sends ([notebook_id],
    [query], [include_sources], [max_sources]) or it is [model] and the
    caller's model is truthy, [top_k] and the caller's top_k is truthy,
    [reranker_enabled] and the caller disabled the reranker, or
    [skip_raptor] and the caller asked for the RAPTOR summaries. *)
Theorem stateless_payload_sparse notebook_id query model top_k max_sources rr sr w :
  ∃ body,
    sent (query_stateless notebook_id query model top_k max_sources rr sr w).2 =
      sent w ++ [mkRequest POST (BASE_URL w +:+ "/api/query") (HEADERS w) (Some body)]
    ∧ ∀ field,
        is_Some (body !! field)
        ↔ field = "notebook_id" ∨ field = "query" ∨ field = "include_sources"
          ∨ field = "max_sources"
          ∨ (field = "model" ∧ truthy_str model = true)
          ∨ (field = "top_k" ∧ truthy_int top_k = true)
          ∨ (field = "reranker_enabled" ∧ rr = false)
          ∨ (field = "skip_raptor" ∧ sr = false).
Proof.
  exists (stateless_payload notebook_id query model top_k max_sources rr sr).
  split; [apply query_stateless_sent | apply stateless_payload_keys].
Qed.

(** C6.  With [top_k] unset and [reranker_enabled] at its default, the
    body transmitted by [query_stateless] has neither the key [top_k] nor
    the key [reranker_enabled]; with [top_k=10] and
    [reranker_enabled=False] it has ["top_k": 10] and
    ["reranker_enabled": false]. *)
Theorem stateless_payload_examples notebook_id query model max_sources sr w :
  (∃ body,
     sent (query_stateless notebook_id query model None max_sources true sr w).2 =
       sent w ++ [mkRequest POST (BASE_URL w +:+ "/api/query") (HEADERS w) (Some body)]
     ∧ body !! "top_k" = None ∧ body !! "reranker_enabled" = None)
  ∧
  (∃ body,
     sent (query_stateless notebook_id query model (Some 10) max_sources false sr w).2 =
       sent w ++ [mkRequest POST (BASE_URL w +:+ "/api/query") (HEADERS w) (Some body)]
     ∧ body !! "top_k" = Some (VInt 10)
     ∧ body !! "reranker_enabled" = Some (VBool false)).
Proof.
  split.
  - exists (stateless_payload notebook_id query model None max_sources true sr).
    split; [apply query_stateless_sent|].
    by rewrite stateless_payload_top_k, stateless_payload_reranker.
  - exists (stateless_payload notebook_id query model (Some 10) max_sources false sr).
    split; [apply query_stateless_sent|].
    by rewrite stateless_payload_top_k, stateless_payload_reranker.
Qed.

(** C10.  A falsy [top_k] (zero) given to [query_stateless] is treated
    exactly as a [top_k] that was not given: the key [top_k] is absent
    from the payload, the payload is the one built for [None], and so is
    the whole run of the function. *)
Theorem falsy_top_k_omitted notebook_id query model top_k max_sources rr sr w :
  truthy_int top_k = false →
  stateless_payload notebook_id query model top_k max_sources rr sr !! "top_k" = None
  ∧ stateless_payload notebook_id query model top_k max_sources rr sr =
    stateless_payload notebook_id query model None max_sources rr sr
  ∧ query_stateless notebook_id query model top_k max_sources rr sr w =
    query_stateless notebook_id query model None max_sources rr sr w.
Proof.
  intros Hfalsy.
  assert (stateless_payload notebook_id query model top_k max_sources rr sr =
          stateless_payload notebook_id query model None max_sources rr sr) as Hsame.
  { unfold stateless_payload. by rewrite Hfalsy. }
  split; [by rewrite stateless_payload_top_k, Hfalsy|]. split; [done|].
  unfold query_stateless. cbv zeta. by rewrite Hsame, Hfalsy.
Qed.

(** C7.  When the response to the request of [query_stateless] has a
    status other than 200, the function prints the status code and the
    body, returns [None] without raising, and has sent that one request
    and no other. *)
Theorem stateless_failure notebook_id query model top_k max_sources rr sr w resp :
  server (sent w ++
            [stateless_request w notebook_id query model top_k max_sources rr sr])
    = Answered resp →
  status_code resp ≠ 200 →
  ∃ w',
    query_stateless notebook_id query model top_k max_sources rr sr w
      = (Returns None, w')
    ∧ last (stdout w') =
        Some (LF +:+ "Error: " +:+ pretty (status_code resp) +:+ " - " +:+ text resp)
    ∧ sent w' =
        sent w ++ [stateless_request w notebook_id query model top_k max_sources rr sr].
Proof.
  intros Hreply Hstatus.
  destruct (query_stateless_run notebook_id query model top_k max_sources rr sr w)
    as (wb & Hq & ->).
  destruct Hq as (_ & _ & _ & Hsent). rewrite app_nil_r in Hsent.
  rewrite run_send, Hsent, Hreply. unfold report_stateless.
  apply Z.eqb_neq in Hstatus. rewrite Hstatus. cbn [negb].
  rewrite run_print. eexists. split; [reflexivity|]. simpl.
  split; [apply last_snoc | by rewrite Hsent].
Qed.

(* ================================================================== *)
(** ** The conversational query executor *)

Lemma conversational_payload_fields notebook_id query session_id model max_history :
  let body := conversational_payload notebook_id query session_id model max_history in
  body !! "notebook_id" = Some notebook_id ∧
  body !! "query" = Some (VStr query) ∧
  body !! "session_id" = Some (VStr session_id) ∧
  body !! "max_sources" = Some (VInt 2) ∧
  body !! "max_history" = Some (VInt max_history).
Proof.
  unfold conversational_payload.
  destruct (truthy_str model); simpl; repeat split; by simplify_map_eq.
Qed.

Lemma map_snd_enumerate {A} (start : nat) (l : list A) :
  map snd (enumerate start l) = l.
Proof. revert start. induction l as [|x l IH]; intros start; simpl; by rewrite ?IH. Qed.

Lemma length_enumerate {A} (start : nat) (l : list A) :
  length (enumerate start l) = length l.
Proof. revert start. induction l as [|x l IH]; intros start; simpl; by rewrite ?IH. Qed.

(** [query_conversational] prints its banner, draws one UUID and runs
    the loop. *)
Lemma query_conversational_run notebook_id queries model max_history w :
  ∃ wb, same_globals w wb ∧ sent wb = sent w ∧ stdout w `prefix_of` stdout wb ∧
    uuids_drawn wb = S (uuids_drawn w) ∧
    query_conversational notebook_id queries model max_history w =
    for_each (enumerate 1 queries)
      (conversational_turn notebook_id (uuid4 (uuids_drawn w)) model max_history) wb.
Proof.
  unfold query_conversational. rewrite !run_print.
  unfold mbind at 1, Py_bind at 1, uuid4_str. simpl uuids_drawn.
  rewrite run_print, run_when_print, run_print.
  eexists. split; [|split; [|split; [|split; [|reflexivity]]]].
  - by destruct (truthy_str model).
  - by destruct (truthy_str model).
  - destruct (truthy_str model); simpl; rewrite <-?app_assoc; by apply prefix_app_r.
  - by destruct (truthy_str model).
Qed.

(** C3.  A run of [query_conversational] over [K] queries draws exactly
    one session identifier; the requests it sends are those of the first
    [n] queries, in the order of the list, [n] being [K] when the run
    ends normally; and the body of the request of every query carries
    that one [session_id], [max_sources = 2] and the caller's
    [max_history]. *)
Theorem conversation_single_session notebook_id queries model max_history w :
  let session_id := uuid4 (uuids_drawn w) in
  let run := query_conversational notebook_id queries model max_history w in
  uuids_drawn run.2 = S (uuids_drawn w)
  ∧ (∃ n, (n ≤ length queries)%nat
        ∧ sent run.2 =
            sent w ++ map (turn_request w notebook_id session_id model max_history)
                        (take n queries)
        ∧ (run.1 = Returns tt → n = length queries))
  ∧ ∀ query,
      let body :=
        conversational_payload notebook_id query session_id model max_history in
      body !! "query" = Some (VStr query)
      ∧ body !! "session_id" = Some (VStr session_id)
      ∧ body !! "max_sources" = Some (VInt 2)
      ∧ body !! "max_history" = Some (VInt max_history).
Proof.
  simpl.
  destruct (query_conversational_run notebook_id queries model max_history w)
    as (wb & Hg & Hsent & _ & Huuid & ->).
  destruct (turns_effect notebook_id (uuid4 (uuids_drawn w)) model max_history
              (enumerate 1 queries) wb) as (n & Hn & _ & Heff & Hret).
  rewrite map_snd_enumerate, length_enumerate in *.
  destruct Heff as (_ & Hu & _ & Hs).
  split; [congruence|]. split.
  - exists n. split; [done|]. split; [|done].
    rewrite Hs, Hsent. f_equal. apply List.map_ext. intros q.
    by apply turn_request_globals.
  - intros query.
    pose proof (conversational_payload_fields notebook_id query
                  (uuid4 (uuids_drawn w)) model max_history) as (_ & ? & ? & ? & ?).
    done.
Qed.

(** C8.  In the loop of [query_conversational], a turn whose response
    has a status other than 200 prints the status code and the body and
    ends normally, and the loop goes on with the remaining turns: the
    request of the next turn, if there is one, is sent. *)
Theorem failed_turn_continues notebook_id session_id model max_history
    (i : nat) query rest w resp :
  let turn := conversational_turn notebook_id session_id model max_history in
  let request := turn_request w notebook_id session_id model max_history in
  server (sent w ++ [request query]) = Answered resp →
  status_code resp ≠ 200 →
  ∃ w1,
    turn (i, query) w = (Returns tt, w1)
    ∧ last (stdout w1) =
        Some ("Error: " +:+ pretty (status_code resp) +:+ " - " +:+ text resp)
    ∧ sent w1 = sent w ++ [request query]
    ∧ for_each (enumerate i (query :: rest)) turn w =
      for_each (enumerate (S i) rest) turn w1
    ∧ ∀ next rest', rest = next :: rest' →
        request next ∈ sent (for_each (enumerate i (query :: rest)) turn w).2.
Proof.
  intros turn request Hreply Hstatus.
  assert (∃ w1, turn (i, query) w = (Returns tt, w1)
                ∧ last (stdout w1) =
                    Some ("Error: " +:+ pretty (status_code resp) +:+ " - "
                          +:+ text resp)
                ∧ sent w1 = sent w ++ [request query]
                ∧ same_globals w w1) as (w1 & Hturn & Hlast & Hsent & Hg).
  { subst turn.
    destruct (conversational_turn_run notebook_id session_id model max_history
                (i, query) w) as (wb & Hq & ->).
    destruct Hq as (Hg & _ & _ & Hsent). rewrite app_nil_r in Hsent.
    simpl snd. fold (request query).
    rewrite run_send, Hsent, Hreply. unfold report_turn.
    apply Z.eqb_neq in Hstatus. rewrite Hstatus. cbn [negb].
    eexists. split; [reflexivity|]. simpl.
    split; [apply last_snoc|]. split; [by rewrite Hsent | done]. }
  exists w1. split; [done|]. split; [done|]. split; [done|].
  assert (for_each (enumerate i (query :: rest)) turn w =
          for_each (enumerate (S i) rest) turn w1) as Hloop.
  { simpl. by rewrite (run_returns _ _ _ _ _ Hturn). }
  split; [done|]. intros next rest' ->. rewrite Hloop. subst turn.
  destruct (turns_effect notebook_id session_id model max_history
              (enumerate (S i) (next :: rest')) w1) as (n & _ & Hpos & Heff & _).
  destruct Heff as (_ & _ & _ & ->).
  destruct n as [|n]; [by specialize (Hpos ltac:(done)); lia|].
  simpl. rewrite (turn_request_globals w w1) by done. fold (request next).
  set_solver.
Qed.

(** Against a service that fails every request, the conversation still
    runs to its end: every turn is sent. *)
Lemma failing_turns_complete notebook_id session_id model max_history turns w :
  (∀ history, ∃ resp, server history = Answered resp ∧ status_code resp ≠ 200) →
  (for_each turns (conversational_turn notebook_id session_id model max_history) w).1
  = Returns tt.
Proof.
  intros Hfail. revert w. induction turns as [|turn turns IH]; intros w; [done|].
  destruct (conversational_turn_run notebook_id session_id model max_history turn w)
    as (wb & _ & Hrun).
  rewrite run_send in Hrun.
  destruct (Hfail (sent wb ++
                     [turn_request w notebook_id session_id model max_history
                        (snd turn)])) as (resp & Hreply & Hstatus).
  rewrite Hreply in Hrun. unfold report_turn in Hrun.
  apply Z.eqb_neq in Hstatus. rewrite Hstatus in Hrun. cbn [negb] in Hrun.
  simpl. rewrite (run_returns _ _ _ _ _ Hrun). apply IH.
Qed.

Lemma failing_service_conversation notebook_id queries model max_history w :
  (∀ history, ∃ resp, server history = Answered resp ∧ status_code resp ≠ 200) →
  let run := query_conversational notebook_id queries model max_history w in
  run.1 = Returns tt
  ∧ sent run.2 =
      sent w ++ map (turn_request w notebook_id (uuid4 (uuids_drawn w)) model
                       max_history) queries.
Proof.
  intros Hfail. simpl.
  destruct (query_conversational_run notebook_id queries model max_history w)
    as (wb & Hg & Hsent & _ & _ & ->).
  pose proof (failing_turns_complete notebook_id (uuid4 (uuids_drawn w)) model
                max_history (enumerate 1 queries) wb Hfail) as Hret.
  split; [done|].
  destruct (turns_effect notebook_id (uuid4 (uuids_drawn w)) model max_history
              (enumerate 1 queries) wb) as (n & _ & _ & Heff & Hn).
  rewrite (Hn Hret), map_snd_enumerate, length_enumerate, firstn_all in Heff.
  destruct Heff as (_ & _ & _ & ->). rewrite Hsent. f_equal.
  apply List.map_ext. intros q. by apply turn_request_globals.
Qed.

(* ================================================================== *)
(** ** The listing of notebooks *)

Lemma alike_refl w : alike w w.
Proof. split; [apply same_globals_refl | done]. Qed.

Lemma quiet_alike w w' : quiet w w' → alike w w'.
Proof.
  intros (Hg & Hu & _ & Hs). rewrite app_nil_r in Hs. by repeat split; try apply Hg.
Qed.

Lemma blind_ret {A} (a : A) : blind (mret a).
Proof. by intros w1 w2 H. Qed.

Lemma blind_lift {A} (o : outcome A) : blind (lift o).
Proof. by intros w1 w2 H. Qed.

Lemma blind_print line : blind (print line).
Proof.
  intros w1 w2 (Hg & Hs & Hu). split; [done|]. by repeat split; try apply Hg.
Qed.

Lemma blind_read_base : blind (read BASE_URL).
Proof. intros w1 w2 H. split; [|done]. simpl. f_equal. symmetry. apply H. Qed.

Lemma blind_read_headers : blind (read HEADERS).
Proof. intros w1 w2 H. split; [|done]. simpl. f_equal. symmetry. apply H. Qed.

Lemma blind_send r : blind (send r).
Proof.
  intros w1 w2 (Hg & Hs & Hu). unfold send. rewrite Hs.
  destruct (server _); (split; [done|]); repeat split; simpl;
    try apply Hg; congruence.
Qed.

Lemma blind_bind {A B} (m : Py A) (f : A → Py B) :
  blind m → (∀ a, blind (f a)) → blind (m ≫= f).
Proof.
  intros Hm Hf w1 w2 Hw. destruct (Hm w1 w2 Hw) as [Hres Hal].
  unfold mbind, Py_bind.
  destruct (m w1) as [r1 w1'], (m w2) as [r2 w2']; simpl in *. subst r2.
  destruct r1 as [a|e]; [by apply Hf | done].
Qed.

Lemma blind_if {A} (cond : bool) (m1 m2 : Py A) :
  blind m1 → blind m2 → blind (if cond then m1 else m2).
Proof. by destruct cond. Qed.

Lemma blind_for_each {A} (l : list A) (body : A → Py unit) :
  (∀ x, blind (body x)) → blind (for_each l body).
Proof.
  intros Hbody. induction l as [|x l IH]; simpl.
  - apply blind_ret.
  - by apply blind_bind.
Qed.

Lemma blind_response_json resp : blind (response_json resp).
Proof. unfold response_json. destruct (json_body resp); [apply blind_ret | apply blind_lift]. Qed.

Ltac blind_step :=
  lazymatch goal with
  | |- blind (mret _) => apply blind_ret
  | |- blind (lift _) => apply blind_lift
  | |- blind (print _) => apply blind_print
  | |- blind (read BASE_URL) => apply blind_read_base
  | |- blind (read HEADERS) => apply blind_read_headers
  | |- blind (send _) => apply blind_send
  | |- blind (response_json _) => apply blind_response_json
  | |- blind (if _ then _ else _) => apply blind_if
  | |- blind (for_each _ _) => apply blind_for_each; intros ?
  | |- blind (_ ≫= _) => apply blind_bind; [|intros ?]
  end.

Lemma blind_list_notebooks : blind list_notebooks.
Proof.
  unfold list_notebooks, requests_get, report_notebooks. repeat blind_step.
  unfold print_notebook. repeat blind_step.
Qed.

(** [list_notebooks] prints its banner, sends one request and hands the
    response to [report_notebooks]. *)
Lemma list_notebooks_run w :
  ∃ wb, quiet w wb ∧
    list_notebooks w = (send (listing_request w) ≫= report_notebooks) wb.
Proof.
  unfold list_notebooks, requests_get, listing_request.
  rewrite !run_print, !run_read.
  set (wb := with_line rule_eq _).
  assert (quiet w wb) as Hq by (subst wb; quiet_world).
  clearbody wb. exists wb. split; [done|].
  destruct Hq as ((-> & _ & _ & ->) & _). done.
Qed.

Lemma report_notebooks_quiet resp w : quiet w (report_notebooks resp w).2.
Proof.
  by apply (keeps_report_notebooks quiet (BASE_URL w) (HEADERS w)
              quiet_globals quiet_line).
Qed.

Lemma list_notebooks_effect w :
  effect [listing_request w] w (list_notebooks w).2.
Proof.
  destruct (list_notebooks_run w) as (wb & Hq & ->).
  apply (effect_trans [] [_] _ wb); [exact Hq|].
  apply send_then_quiet, report_notebooks_quiet.
Qed.

Lemma for_each_returns {A} (l : list A) (body : A → Py unit) w :
  (for_each l body w).1 = Returns tt →
  Forall (λ x, ∃ w1, (body x w1).1 = Returns tt) l.
Proof.
  revert w. induction l as [|x l IH]; intros w; simpl; [by constructor|].
  unfold mbind, Py_bind. destruct (body x w) as [[[]|e] w1] eqn:Hx; [|done].
  intros Hl. constructor; [|by eapply IH].
  exists w. by rewrite Hx.
Qed.

Lemma print_notebook_returns nb w :
  (print_notebook nb w).1 = Returns tt → ∃ id, py_getitem nb "id" = Returns id.
Proof.
  unfold print_notebook. rewrite run_lift.
  destruct (py_getitem nb "id") as [id|e]; [by eauto | done].
Qed.

(** A listing that is returned and is not empty is a list of objects
    that all have an [id]. *)
Lemma report_notebooks_listed resp w notebooks :
  (report_notebooks resp w).1 = Returns notebooks →
  py_truthy notebooks = true →
  ∃ items, notebooks = VList items ∧
    Forall (λ nb, ∃ id, py_getitem nb "id" = Returns id) items.
Proof.
  unfold report_notebooks. destruct (negb _).
  { rewrite run_print. simpl. by intros [= <-]. }
  unfold response_json. destruct (json_body resp) as [data|]; [|done].
  rewrite run_ret, run_lift. destruct (py_get data _ _) as [nbs|]; [|done].
  rewrite run_lift. destruct (py_len nbs) as [count|]; [|done].
  rewrite run_print, run_lift. destruct (py_iter nbs) as [items|] eqn:Hiter; [|done].
  unfold mbind at 1, Py_bind at 1.
  destruct (for_each items print_notebook _) as [[[]|e] w1] eqn:Hloop; [|done].
  simpl. intros [= <-] Htruthy.
  assert (Forall (λ nb, ∃ id, py_getitem nb "id" = Returns id) items) as Hids.
  { eapply Forall_impl.
    - eapply for_each_returns. by rewrite Hloop.
    - intros nb [w2 Hnb]. by eapply print_notebook_returns. }
  destruct nbs as [| | | |s|l|d]; try done; simpl in Hiter; injection Hiter as <-.
  - destruct s as [|c s]; [done|]. simpl in Hids.
    apply Forall_cons in Hids as [[id Hid] _]. done.
  - by exists l.
  - destruct d as [|[k v] d]; [done|]. simpl in Hids.
    apply Forall_cons in Hids as [[id Hid] _]. done.
Qed.

Lemma list_notebooks_listed w notebooks :
  (list_notebooks w).1 = Returns notebooks →
  py_truthy notebooks = true →
  ∃ items, notebooks = VList items ∧
    Forall (λ nb, ∃ id, py_getitem nb "id" = Returns id) items.
Proof.
  destruct (list_notebooks_run w) as (wb & _ & ->). rewrite run_send.
  destruct (server _); [|done]. apply report_notebooks_listed.
Qed.

(** The comprehension [[nb["id"] for nb in notebooks]] on such a list. *)
Lemma listed_ids items :
  Forall (λ nb, ∃ id, py_getitem nb "id" = Returns id) items →
  ∃ ids, mapM (λ nb, py_getitem nb "id") items = Returns ids ∧
    Forall2 (λ nb id, py_getitem nb "id" = Returns id) items ids.
Proof.
  induction 1 as [|nb items [id Hid] _ (ids & Hids & Hall)].
  - exists []. by split; [|constructor].
  - exists (id :: ids). split; [|by constructor].
    simpl. rewrite Hid. simpl. by rewrite Hids.
Qed.

Lemma py_eq_str_true s v : py_eq_str s v = true ↔ v = VStr s.
Proof.
  destruct v; simpl; try (split; [done | by intros [=]]).
  rewrite String.eqb_eq. split; [by intros -> | by intros [= ->]].
Qed.

Lemma py_in_false requested items ids :
  Forall2 (λ nb id, py_getitem nb "id" = Returns id) items ids →
  (∀ nb, nb ∈ items → py_getitem nb "id" ≠ Returns (VStr requested)) →
  py_in requested ids = false.
Proof.
  unfold py_in. induction 1 as [|nb id items ids Hid _ IH]; intros Hnot; [done|].
  simpl. rewrite IH by (intros ? ?; apply Hnot; by right).
  rewrite orb_false_r. apply not_true_is_false. intros ->%py_eq_str_true.
  by apply (Hnot nb); [left|].
Qed.

Lemma py_in_true requested items ids :
  Forall2 (λ nb id, py_getitem nb "id" = Returns id) items ids →
  (∃ nb, nb ∈ items ∧ py_getitem nb "id" = Returns (VStr requested)) →
  py_in requested ids = true.
Proof.
  unfold py_in. induction 1 as [|nb id items ids Hid _ IH]; intros (x & Hx & Hxid).
  - by apply elem_of_nil in Hx.
  - simpl. apply elem_of_cons in Hx as [->|Hx].
    + rewrite Hid in Hxid. injection Hxid as ->. simpl. by rewrite String.eqb_refl.
    + rewrite IH by eauto. apply orb_true_r.
Qed.

(* ================================================================== *)
(** ** The main entry point *)

Lemma run_assoc {A B C} (m : Py A) (f : A → Py B) (g : B → Py C) w :
  ((m ≫= f) ≫= g) w = (m ≫= λ a, f a ≫= g) w.
Proof. unfold mbind, Py_bind. by destruct (m w) as [[a|e] w1]. Qed.

Lemma admits_queries_carries base hdrs args id :
  admits_queries (carries id) base hdrs args id.
Proof.
  split.
  - intros query _. eexists. split; [done|]. apply stateless_payload_fixed.
  - intros session_id query _. eexists. split; [done|].
    apply conversational_payload_fields.
Qed.

Lemma run_queries_carries args id w :
  talks (carries id) w (run_queries args id w).2.
Proof.
  apply (keeps_run_queries (talks (carries id)) (carries id)
           (BASE_URL w) (HEADERS w)); try done.
  - apply talks_globals.
  - apply talks_line.
  - apply talks_request.
  - apply talks_uuid.
  - apply admits_queries_carries.
Qed.

(** [parse_args] always returns, and changes nothing. *)
Lemma parse_args_run argv w :
  ∃ args, parse_args argv w = (Returns args, w)
    ∧ args_url args = default (BASE_URL w) (opt_url argv)
    ∧ args_api_key args = default (API_KEY w) (opt_api_key argv)
    ∧ args_notebook args = default (NOTEBOOK_ID w) (opt_notebook argv).
Proof. eexists. by split. Qed.

Lemma main_run_configured argv w args :
  (parse_args argv w).1 = Returns args →
  main argv w = main_run args (configured argv w)
  ∧ configured argv w =
    with_globals (args_url args) (args_api_key args)
      (make_headers (args_api_key args)) w.
Proof.
  intros Hargs.
  destruct (parse_args_run argv w) as (args' & Hrun & _).
  rewrite Hrun in Hargs. injection Hargs as ->.
  assert (main_configure argv w =
          (Returns args,
           with_globals (args_url args) (args_api_key args)
             (make_headers (args_api_key args)) w)) as Hconf.
  { unfold main_configure. by rewrite (run_returns _ _ _ _ _ Hrun). }
  unfold main, configured. by rewrite (run_returns _ _ _ _ _ Hconf), Hconf.
Qed.

Lemma list_models_run w : ∃ w', list_models w = (Returns tt, w') ∧ quiet w w'.
Proof.
  exists (list_models w).2. split.
  - by rewrite (surjective_pairing (list_models w)).
  - by apply (keeps_list_models quiet (BASE_URL w) (HEADERS w)
                quiet_globals quiet_line).
Qed.

(** Without [--list-models] and [--list-notebooks], [main_run] prints
    its banner, lists the notebooks and goes on with [after_listing]. *)
Lemma main_run_normal args w :
  args_list_models args = false → args_list_notebooks args = false →
  ∃ wb, quiet w wb ∧ main_run args w = (list_notebooks ≫= after_listing args) wb.
Proof.
  intros Hlm Hln. unfold main_run. rewrite Hlm, Hln.
  rewrite !run_print, run_read, !run_print, run_when_print.
  eexists. split; [|reflexivity]. quiet_world.
Qed.

Lemma after_listing_empty args notebooks w :
  py_truthy notebooks = false →
  after_listing args notebooks w =
  (Returns tt,
   with_line (LF +:+ "No notebooks found. Please create a notebook first.") w).
Proof. intros Hempty. unfold after_listing. by rewrite Hempty. Qed.

Lemma after_listing_nonempty args first others ids w :
  mapM (λ nb, py_getitem nb "id") (first :: others) = Returns ids →
  after_listing args (VList (first :: others)) w =
  if py_in (args_notebook args) ids
  then run_queries args (VStr (args_notebook args)) w
  else match py_getitem first "id" with
       | Returns id =>
           run_queries args id
             (with_line (LF +:+ "Specified notebook not found, using: "
                         +:+ py_str id) w)
       | Raises e => (Raises e, w)
       end.
Proof.
  intros Hids. unfold after_listing. cbn [py_truthy negb].
  rewrite run_lift. cbn [py_iter]. rewrite run_lift, Hids.
  destruct (py_in _ ids); cbn [negb].
  - by rewrite run_ret.
  - rewrite run_assoc, run_lift. cbn [py_first].
    rewrite run_assoc, run_lift. destruct (py_getitem first "id"); [|done].
    by rewrite run_assoc, run_print, run_ret.
Qed.

Lemma bind_ret_world {A} (m : Py A) w : ((m ≫= λ _, mret tt) w).2 = (m w).2.
Proof. unfold mbind, Py_bind. by destruct (m w) as [[a|e] w1]. Qed.

Lemma configured_sent argv w : sent (configured argv w) = sent w.
Proof. done. Qed.

Lemma configured_stdout argv w : stdout (configured argv w) = stdout w.
Proof. done. Qed.

(** C4.  When the listing of notebooks is empty, [main] issues no POST
    request (the only requests of the run are GET requests) and returns
    normally; on the path that reaches the choice of the notebook, the
    last line it prints is the message that no notebook was found. *)
Theorem empty_listing_no_query argv w args notebooks :
  (parse_args argv w).1 = Returns args →
  (list_notebooks (configured argv w)).1 = Returns notebooks →
  py_truthy notebooks = false →
  ∃ w',
    main argv w = (Returns tt, w')
    ∧ (∃ new, sent w' = sent w ++ new ∧ Forall (λ r, req_method r = GET) new)
    ∧ (args_list_models args = false → args_list_notebooks args = false →
       last (stdout w') =
         Some (LF +:+ "No notebooks found. Please create a notebook first.")).
Proof.
  intros Hargs Hlist Hempty.
  destruct (main_run_configured argv w args Hargs) as [-> _].
  pose proof (configured_sent argv w) as Hsent.
  set (wc := configured argv w) in *. clearbody wc.
  destruct (args_list_models args) eqn:Hlm; [|destruct (args_list_notebooks args) eqn:Hln].
  - unfold main_run. rewrite Hlm.
    destruct (list_models_run wc) as (w' & -> & Hq).
    exists w'. split; [done|]. split; [|done].
    exists []. destruct Hq as (_ & _ & _ & ->). by rewrite Hsent.
  - unfold main_run. rewrite Hlm, Hln.
    pose proof (list_notebooks_effect wc) as (_ & _ & _ & Hs).
    destruct (list_notebooks wc) as [r wl] eqn:Hrun. cbn [fst snd] in *. subst r.
    rewrite (run_returns _ _ _ _ _ Hrun). eexists. split; [reflexivity|].
    split; [|done]. eexists. split; [by rewrite Hs, Hsent|]. by repeat constructor.
  - destruct (main_run_normal args wc Hlm Hln) as (wb & Hq & ->).
    pose proof (blind_list_notebooks wc wb (quiet_alike _ _ Hq)) as [Hsame _].
    pose proof (list_notebooks_effect wb) as (_ & _ & _ & Hs).
    destruct (list_notebooks wb) as [r wl] eqn:Hrun. cbn [fst snd] in *.
    rewrite Hlist in Hsame. subst r.
    rewrite (run_returns _ _ _ _ _ Hrun), after_listing_empty by done.
    eexists. split; [reflexivity|]. simpl. split.
    + destruct Hq as (_ & _ & _ & Hsb). rewrite app_nil_r in Hsb.
      eexists. split; [by rewrite Hs, Hsb, Hsent | by repeat constructor].
    + intros _ _. apply last_snoc.
Qed.

(** C5.  When the listing is not empty and the requested notebook id is
    the id of none of the listed notebooks, every POST request of the run
    of [main] carries the id of the first listed notebook as
    [notebook_id], and on the path that reaches the choice of the
    notebook (the two list-only modes return before it, without any
    query) [main] prints the line that reports the substitution and names
    that id. *)
Theorem missing_notebook_substituted argv w args first others :
  (parse_args argv w).1 = Returns args →
  (list_notebooks (configured argv w)).1 = Returns (VList (first :: others)) →
  (∀ nb, nb ∈ first :: others →
         py_getitem nb "id" ≠ Returns (VStr (args_notebook args))) →
  ∃ id,
    py_getitem first "id" = Returns id
    ∧ (∃ new, sent (main argv w).2 = sent w ++ new ∧ Forall (carries id) new)
    ∧ (args_list_models args = false → args_list_notebooks args = false →
       substitution_notice (py_str id) ∈ stdout (main argv w).2).
Proof.
  intros Hargs Hlist Hmissing.
  destruct (main_run_configured argv w args Hargs) as [-> _].
  pose proof (configured_sent argv w) as Hsent.
  set (wc := configured argv w) in *. clearbody wc.
  destruct (list_notebooks_listed wc _ Hlist) as (items & [= <-] & Hhave); [done|].
  destruct (listed_ids _ Hhave) as (ids & Hids & Hall).
  apply Forall_cons in Hhave as [[id Hid] _]. exists id. split; [done|].
  destruct (args_list_models args) eqn:Hlm; [|destruct (args_list_notebooks args) eqn:Hln].
  - split; [|done]. unfold main_run. rewrite Hlm.
    destruct (list_models_run wc) as (w' & -> & Hq).
    exists []. cbn [snd]. destruct Hq as (_ & _ & _ & ->). by rewrite Hsent.
  - split; [|done]. unfold main_run. rewrite Hlm, Hln, bind_ret_world.
    pose proof (list_notebooks_effect wc) as (_ & _ & _ & ->).
    eexists. split; [by rewrite Hsent | by repeat constructor].
  - destruct (main_run_normal args wc Hlm Hln) as (wb & Hq & ->).
    pose proof (blind_list_notebooks wc wb (quiet_alike _ _ Hq)) as [Hsame _].
    pose proof (list_notebooks_effect wb) as (_ & _ & _ & Hs).
    destruct (list_notebooks wb) as [r wl] eqn:Hrun. cbn [fst snd] in *.
    rewrite Hlist in Hsame. subst r.
    rewrite (run_returns _ _ _ _ _ Hrun), (after_listing_nonempty _ _ _ _ _ Hids).
    rewrite (py_in_false _ _ _ Hall Hmissing), Hid.
    set (wm := with_line _ wl).
    destruct (run_queries_carries args id wm)
      as (_ & [more Hout] & new & Hnew & Hcarry).
    split.
    + exists (listing_request wb :: new). split.
      * destruct Hq as (_ & _ & _ & Hsb). rewrite app_nil_r in Hsb.
        rewrite Hnew. subst wm. simpl. rewrite Hs, Hsb, Hsent.
        by rewrite <-app_assoc.
      * constructor; [done|exact Hcarry].
    + intros _ _. rewrite Hout. subst wm. simpl.
      unfold substitution_notice. set_solver.
Qed.

(** Every POST request of [main_run] carries one and the same notebook
    id: the requested one, or one whose substitution was reported. *)
Lemma main_run_notebook args w :
  ∃ id,
    (id = VStr (args_notebook args)
     ∨ substitution_notice (py_str id) ∈ stdout (main_run args w).2)
    ∧ talks (carries id) w (main_run args w).2.
Proof.
  destruct (args_list_models args) eqn:Hlm; [|destruct (args_list_notebooks args) eqn:Hln].
  - exists (VStr (args_notebook args)). split; [by left|].
    unfold main_run. rewrite Hlm. destruct (list_models_run w) as (w' & -> & Hq).
    by eapply effect_talks.
  - exists (VStr (args_notebook args)). split; [by left|].
    unfold main_run. rewrite Hlm, Hln, bind_ret_world.
    eapply effect_talks; [apply list_notebooks_effect|]. by repeat constructor.
  - destruct (main_run_normal args w Hlm Hln) as (wb & Hq & ->).
    assert (talks (carries (VStr (args_notebook args))) w wb) as Hwb
      by (by eapply effect_talks).
    pose proof (list_notebooks_effect wb) as Hlist.
    assert (∀ id, talks (carries id) wb (list_notebooks wb).2) as Hwl.
    { intros id. eapply effect_talks; [exact Hlist|]. by repeat constructor. }
    destruct (list_notebooks wb) as [[notebooks|e] wl] eqn:Hrun; cbn [snd] in *.
    2:{ exists (VStr (args_notebook args)). split; [by left|].
        rewrite (run_raises _ _ _ _ _ Hrun). simpl. etrans; [exact Hwb | apply Hwl]. }
    rewrite (run_returns _ _ _ _ _ Hrun).
    destruct (py_truthy notebooks) eqn:Htruthy.
    2:{ exists (VStr (args_notebook args)). split; [by left|].
        rewrite after_listing_empty by done. simpl.
        etrans; [exact Hwb|]. etrans; [apply Hwl | apply talks_line]. }
    destruct (list_notebooks_listed wb notebooks) as (items & -> & Hhave);
      [by rewrite Hrun | done |].
    destruct items as [|first others]; [done|].
    destruct (listed_ids _ Hhave) as (ids & Hids & _).
    rewrite (after_listing_nonempty _ _ _ _ _ Hids).
    destruct (py_in _ ids).
    + exists (VStr (args_notebook args)). split; [by left|].
      etrans; [exact Hwb|]. etrans; [apply Hwl | apply run_queries_carries].
    + apply Forall_cons in Hhave as [[id Hid] _]. rewrite Hid. exists id.
      set (wm := with_line _ wl).
      pose proof (run_queries_carries args id wm) as Hrest. split.
      * right. destruct Hrest as (_ & [more ->] & _). subst wm. simpl.
        unfold substitution_notice. set_solver.
      * etrans; [by eapply effect_talks|]. etrans; [apply Hwl|].
        etrans; [apply talks_line | exact Hrest].
Qed.

Lemma precedence_default flag environ name builtin :
  default (getenv environ name builtin) flag = precedence flag (environ !! name) builtin.
Proof. unfold getenv, precedence. by destruct flag, (environ !! name). Qed.

Lemma make_headers_key key : make_headers key !! "X-API-Key" = Some key.
Proof. unfold make_headers. by simplify_map_eq. Qed.

Lemma addressed_query url key method body :
  addressed url key (mkRequest method (url +:+ "/api/query") (make_headers key) body).
Proof. split; [by left | apply make_headers_key]. Qed.

Lemma addressed_listing url key method body :
  addressed url key
    (mkRequest method (url +:+ "/api/query/notebooks") (make_headers key) body).
Proof. split; [by right | apply make_headers_key]. Qed.

Lemma admits_queries_addressed url key args id :
  admits_queries (addressed url key) url (make_headers key) args id.
Proof. split; intros; apply addressed_query. Qed.

(** C9.  Each of the three configuration values is the value of the
    command-line option when it is given, else the value of the
    environment variable when it is set, else the built-in default.
    These are the values [main] works with: every request of the run goes
    to an endpoint under that base URL with that API key, and every query
    carries that notebook id, or one notebook id whose substitution the
    run has reported. *)
Theorem configuration_precedence environ argv :
  let w0 := module_init environ in
  let url :=
    precedence (opt_url argv) (environ !! "DBNOTEBOOK_API_URL")
      "http://localhost:7860" in
  let key :=
    precedence (opt_api_key argv) (environ !! "DBNOTEBOOK_API_KEY")
      "dbn_00000000000000000000000000000001" in
  let notebook :=
    precedence (opt_notebook argv) (environ !! "DBNOTEBOOK_NOTEBOOK_ID")
      "18ee0c23-a2ce-4eb2-a56c-62a12dee964a" in
  ∃ args,
    (parse_args argv w0).1 = Returns args
    ∧ args_url args = url ∧ args_api_key args = key ∧ args_notebook args = notebook
    ∧ Forall (addressed url key) (sent (main argv w0).2)
    ∧ ∃ id,
        (id = VStr notebook
         ∨ substitution_notice (py_str id) ∈ stdout (main argv w0).2)
        ∧ Forall (carries id) (sent (main argv w0).2).
Proof.
  intros w0 url key notebook.
  destruct (parse_args_run argv w0) as (args & Hrun & Hurl & Hkey & Hnb).
  assert ((parse_args argv w0).1 = Returns args) as Hargs by (by rewrite Hrun).
  subst w0. simpl in Hurl, Hkey, Hnb. rewrite precedence_default in Hurl, Hkey, Hnb.
  fold url in Hurl. fold key in Hkey. fold notebook in Hnb.
  exists args. do 4 (split; [done|]).
  destruct (main_run_configured argv _ args Hargs) as [-> Hconf].
  pose proof (configured_sent argv (module_init environ)) as Hsent.
  set (wc := configured argv (module_init environ)) in *.
  assert (settled url (make_headers key) wc) as Hsettled.
  { rewrite Hconf, Hurl, Hkey. done. }
  clearbody wc. simpl in Hsent. split.
  - pose proof (keeps_main_run (talks (addressed url key)) (addressed url key)
                  url (make_headers key) (talks_globals _) (talks_line _)
                  (talks_request _) args (talks_uuid _)) as Hkeeps.
    destruct (Hkeeps (addressed_listing url key GET None)
                (admits_queries_addressed url key args) wc Hsettled)
      as (_ & _ & new & -> & Hnew).
    by rewrite Hsent.
  - destruct (main_run_notebook args wc) as (id & Hid & _ & _ & new & Hnew & Hcarry).
    exists id. rewrite Hnb in Hid. split; [done|]. by rewrite Hnew, Hsent.
Qed.

(** Where every expected field is missing from a decoded response,
    [print_result] prints the placeholders and ends normally. *)
Lemma print_result_placeholders w :
  ∃ w', print_result (VDict []) w = (Returns tt, w')
    ∧ stdout w' =
      stdout w ++ [ LF +:+ rule_box; "Response:"; rule_box; "No response";
                    LF +:+ rule_box; "Metadata:";
                    "  Execution time: N/Ams"; "  Model: N/A";
                    "  Stateless: N/A"; "  Node count: N/A" ].
Proof.
  eexists. split; [reflexivity|]. simpl. by rewrite <-!app_assoc.
Qed.

(* ================================================================== *)
(** ** What the presentation code can print *)

Lemma fst_bind {A B} (m : Py A) (f : A → Py B) w :
  ((m ≫= f) w).1 =
  match (m w).1 with
  | Returns a => (f a (m w).2).1
  | Raises e => Raises e
  end.
Proof. unfold mbind, Py_bind. by destruct (m w) as [[a|e] w1]. Qed.

(** A loop ends normally exactly when every round does, if that only
    depends on the element. *)
Lemma for_each_outcome {A} (ok : A → bool) (body : A → Py unit) :
  (∀ x w, (body x w).1 = Returns tt ↔ ok x = true) →
  ∀ l w, (for_each l body w).1 = Returns tt ↔ forallb ok l = true.
Proof.
  intros Hbody l. induction l as [|x l IH]; intros w; simpl; [done|].
  rewrite fst_bind. specialize (Hbody x w).
  destruct (body x w) as [[[]|e] w1]; simpl in *.
  - rewrite (proj1 Hbody eq_refl). simpl. apply IH.
  - destruct (ok x); simpl; [|done]. by destruct Hbody as [_ Hbody]; specialize (Hbody eq_refl).
Qed.

Lemma for_each_prints {A} (l : list A) (line : A → string) w :
  ∃ w', for_each l (λ x, print (line x)) w = (Returns tt, w').
Proof.
  revert w. induction l as [|x l IH]; intros w; simpl; [by eexists|].
  rewrite run_print. apply IH.
Qed.

Lemma forallb_enumerate {A} (ok : A → bool) (start : nat) (l : list A) :
  forallb (λ ix, ok (snd ix)) (enumerate start l) = forallb ok l.
Proof. revert start. induction l as [|x l IH]; intros start; simpl; by rewrite ?IH. Qed.

Lemma formattable_format v :
  formattable v = match py_format_3f v with Returns _ => true | Raises _ => false end.
Proof.
  destruct v as [|b|n|x|s|l|d]; simpl; try done.
  - by destruct b.
  - unfold mbind, outcome_bind. by destruct (float_of_int n).
Qed.

Lemma print_source_outcome isrc w :
  (print_source isrc w).1 = Returns tt ↔ presentable_source (snd isrc) = true.
Proof.
  unfold print_source, presentable_source.
  destruct (snd isrc) as [|b|n|x|s|l|d]; try (by rewrite run_lift).
  rewrite run_lift. cbn [py_get]. rewrite run_print, run_lift. cbn [py_get].
  rewrite run_lift, formattable_format.
  destruct (py_format_3f _) as [score_text|e]; [|done].
  rewrite run_print, run_lift. cbn [py_get]. rewrite run_lift.
  by destruct (default (VStr "") (dict_lookup "snippet" d)).
Qed.

Lemma chars_nonempty s : s ≠ "" → ∃ c rest, chars s = VStr c :: rest.
Proof. destruct s as [|c s]; [done|]. by eexists _, _. Qed.

Lemma print_sources_outcome sources w :
  (print_sources sources w).1 = Returns tt
  ↔ negb (py_truthy sources)
    || match sources with
       | VList l => forallb presentable_source l
       | _ => false
       end = true.
Proof.
  unfold print_sources. destruct (py_truthy sources) eqn:Htruthy; [|done].
  cbn [when negb orb]. rewrite run_print, run_lift.
  destruct sources as [|b|n|x|s|l|d]; try done; cbn [py_len];
    rewrite run_print, run_lift; cbn [py_iter].
  - (* a string: its first character has no [get] *)
    rewrite (for_each_outcome (λ ix, presentable_source (snd ix)))
      by apply print_source_outcome.
    rewrite forallb_enumerate. by destruct s.
  - rewrite (for_each_outcome (λ ix, presentable_source (snd ix)))
      by apply print_source_outcome.
    by rewrite forallb_enumerate.
  - (* an object: its first key has no [get] *)
    rewrite (for_each_outcome (λ ix, presentable_source (snd ix)))
      by apply print_source_outcome.
    rewrite forallb_enumerate. by destruct d.
Qed.

Lemma print_timings_returns timings w :
  negb (py_truthy timings) || match timings with VDict _ => true | _ => false end = true →
  ∃ w', print_timings timings w = (Returns tt, w').
Proof.
  unfold print_timings. destruct (py_truthy timings) eqn:Htruthy; [|by eexists].
  cbn [when negb orb]. destruct timings; try done. intros _.
  rewrite run_print, run_lift. cbn [py_items]. apply for_each_prints.
Qed.

Lemma print_timings_raises timings w :
  negb (py_truthy timings) || match timings with VDict _ => true | _ => false end = false →
  ∃ e w', print_timings timings w = (Raises e, w').
Proof.
  unfold print_timings. destruct (py_truthy timings) eqn:Htruthy; [|done].
  cbn [when negb orb]. destruct timings; try done; intros _;
    rewrite run_print, run_lift; by eexists _, _.
Qed.

(** [print_result] is the sequence of its blocks. *)
Lemma print_result_blocks result :
  print_result result =
  (print (LF +:+ rule_box);;
   print "Response:";;
   print rule_box;;
   answer ← lift (py_get result "response" (VStr "No response"));
   print (py_str answer);;
   metadata ← lift (py_get result "metadata" (VDict []));
   print (LF +:+ rule_box);;
   print "Metadata:";;
   execution_time ← lift (py_get metadata "execution_time_ms" (VStr "N/A"));
   print ("  Execution time: " +:+ py_str execution_time +:+ "ms");;
   used_model ← lift (py_get metadata "model" (VStr "N/A"));
   print ("  Model: " +:+ py_str used_model);;
   stateless ← lift (py_get metadata "stateless" (VStr "N/A"));
   print ("  Stateless: " +:+ py_str stateless);;
   node_count ← lift (py_get metadata "node_count" (VStr "N/A"));
   print ("  Node count: " +:+ py_str node_count);;
   timings ← lift (py_get metadata "timings" (VDict []));
   print_timings timings;;
   sources ← lift (py_get result "sources" (VList []));
   print_sources sources).
Proof. reflexivity. Qed.

Lemma print_result_outcome result w :
  (print_result result w).1 = Returns tt ↔ presentable result = true.
Proof.
  rewrite print_result_blocks. unfold presentable. rewrite !run_print.
  destruct result as [|b|n|x|s|l|d]; try (by rewrite run_lift).
  rewrite run_lift. cbn [py_get]. rewrite run_print, run_lift. cbn [py_get].
  rewrite !run_print.
  destruct (default (VDict []) (dict_lookup "metadata" d)) as [|b|n|x|s|l|m];
    try (by rewrite run_lift).
  do 4 (rewrite run_lift; cbn [py_get]; rewrite run_print).
  rewrite run_lift. cbn [py_get].
  set (timings := default (VDict []) (dict_lookup "timings" m)).
  set (sources := default (VList []) (dict_lookup "sources" d)).
  cbv zeta.
  destruct (negb (py_truthy timings)
            || match timings with VDict _ => true | _ => false end) eqn:Htimings.
  - match goal with
    | |- context [(print_timings timings ≫= _) ?w0] =>
        destruct (print_timings_returns timings w0 Htimings) as [w' Hw']
    end.
    rewrite (run_returns _ _ _ _ _ Hw'), run_lift. cbn [py_get andb].
    apply print_sources_outcome.
  - match goal with
    | |- context [(print_timings timings ≫= _) ?w0] =>
        destruct (print_timings_raises timings w0 Htimings) as (e & w' & Hw')
    end.
    by rewrite (run_raises _ _ _ _ _ Hw').
Qed.

(** X1.  [print_result] ends normally on exactly the presentable
    responses: on any other decoded response (one that is not an object,
    or whose metadata is not an object, or whose timings are a non-empty
    value other than an object, or whose sources have an entry without a
    formattable score or with a snippet that cannot be sliced) it
    raises. *)
Theorem print_result_returns_iff result w :
  (print_result result w).1 = Returns tt ↔ presentable result = true.
Proof. apply print_result_outcome. Qed.

Lemma print_turn_outcome result w :
  (print_turn result w).1 = Returns tt ↔ presentable_turn result = true.
Proof.
  unfold print_turn, presentable_turn.
  destruct result as [|b|n|x|s|l|d]; try (by rewrite run_lift).
  rewrite run_lift. cbn [py_get]. rewrite run_lift. cbn [py_get]. rewrite run_lift.
  destruct (default (VDict []) (dict_lookup "metadata" d)) as [|b|n|x|s|l|m],
    (default (VStr "No response") (dict_lookup "response" d)) as [|b'|n'|x'|s'|l'|d'];
    cbn [py_slice_to sliceable]; try done;
    rewrite run_print, run_lift; try done;
    cbn [py_get]; by rewrite !run_print, ?run_lift.
Qed.

Lemma report_turn_outcome resp w :
  (report_turn resp w).1 = Returns tt ↔ tolerated resp = true.
Proof.
  unfold report_turn, tolerated. destruct (negb (status_code resp =? 200)); [done|].
  cbn [orb]. unfold response_json. destruct (json_body resp) as [result|].
  - rewrite run_ret. apply print_turn_outcome.
  - by rewrite run_lift.
Qed.

(* ================================================================== *)
(** ** Which responses the executors get over *)

Lemma conversational_turn_outcome notebook_id session_id model max_history turn w :
  (conversational_turn notebook_id session_id model max_history turn w).1 = Returns tt
  ↔ ∃ resp,
      server (sent w ++
                [turn_request w notebook_id session_id model max_history (snd turn)])
        = Answered resp
      ∧ tolerated resp = true.
Proof.
  destruct (conversational_turn_run notebook_id session_id model max_history turn w)
    as (wb & Hq & ->).
  destruct Hq as (_ & _ & _ & Hs). rewrite app_nil_r in Hs.
  rewrite run_send, Hs. destruct (server _) as [resp|].
  - rewrite report_turn_outcome. split; [by eauto | by intros (? & [= <-] & ?)].
  - split; [done | by intros (? & ? & ?)].
Qed.

(** X2.  A turn of the conversation ends normally exactly when its
    request is answered and the response is tolerated: it is a failure
    (any status other than 200), or a success whose body decodes to an
    object with an object (or no) metadata and a string or list (or no)
    response.  A transport failure, a body that is not JSON and any other
    decoded body make the turn raise. *)
Theorem turn_returns_iff notebook_id session_id model max_history turn w :
  (conversational_turn notebook_id session_id model max_history turn w).1 = Returns tt
  ↔ ∃ resp,
      server (sent w ++
                [turn_request w notebook_id session_id model max_history (snd turn)])
        = Answered resp
      ∧ tolerated resp = true.
Proof. apply conversational_turn_outcome. Qed.

Lemma tolerated_turns_complete notebook_id session_id model max_history turns w :
  (∀ history, ∃ resp, server history = Answered resp ∧ tolerated resp = true) →
  (for_each turns (conversational_turn notebook_id session_id model max_history) w).1
  = Returns tt.
Proof.
  intros Hserver. revert w. induction turns as [|turn turns IH]; intros w; [done|].
  simpl. rewrite fst_bind.
  rewrite (proj2 (conversational_turn_outcome notebook_id session_id model
                    max_history turn w)) by apply Hserver.
  apply IH.
Qed.

(** X3.  Against a service that answers every request with a tolerated
    response, [query_conversational] ends normally and has sent the
    request of every query, in the order of the list, all under the one
    session id it drew. *)
Theorem tolerant_conversation notebook_id queries model max_history w :
  (∀ history, ∃ resp, server history = Answered resp ∧ tolerated resp = true) →
  let run := query_conversational notebook_id queries model max_history w in
  run.1 = Returns tt
  ∧ sent run.2 =
      sent w ++ map (turn_request w notebook_id (uuid4 (uuids_drawn w)) model
                       max_history) queries.
Proof.
  intros Hserver. simpl.
  destruct (query_conversational_run notebook_id queries model max_history w)
    as (wb & Hg & Hsent & _ & _ & ->).
  pose proof (tolerated_turns_complete notebook_id (uuid4 (uuids_drawn w)) model
                max_history (enumerate 1 queries) wb Hserver) as Hret.
  split; [done|].
  destruct (turns_effect notebook_id (uuid4 (uuids_drawn w)) model max_history
              (enumerate 1 queries) wb) as (n & _ & _ & Heff & Hn).
  rewrite (Hn Hret), map_snd_enumerate, length_enumerate, firstn_all in Heff.
  destruct Heff as (_ & _ & _ & ->). rewrite Hsent. f_equal.
  apply List.map_ext. intros q. by apply turn_request_globals.
Qed.

(** X4.  In the loop of [query_conversational], a turn whose request
    gets no tolerated response (the transport fails, the body of a 200 is
    not JSON, or it decodes to something [print_turn] cannot print) raises
    out of the loop: the request of that turn is the last one sent, and
    the remaining turns are never issued. *)
Theorem untolerated_turn_aborts notebook_id session_id model max_history
    (i : nat) query rest w :
  let turn := conversational_turn notebook_id session_id model max_history in
  let request := turn_request w notebook_id session_id model max_history in
  (∀ resp, server (sent w ++ [request query]) = Answered resp →
           tolerated resp = false) →
  ∃ e w1,
    for_each (enumerate i (query :: rest)) turn w = (Raises e, w1)
    ∧ sent w1 = sent w ++ [request query].
Proof.
  intros turn request Hbad. subst turn request.
  pose proof (conversational_turn_effect notebook_id session_id model max_history
                (i, query) w) as (_ & _ & _ & Hsent).
  pose proof (conversational_turn_outcome notebook_id session_id model max_history
                (i, query) w) as Hout.
  destruct (conversational_turn _ _ _ _ (i, query) w) as [[[]|e] w1] eqn:Hturn;
    cbn [fst snd] in *.
  - destruct (proj1 Hout eq_refl) as (resp & Hresp & Hok).
    by rewrite (Hbad resp Hresp) in Hok.
  - exists e, w1. split; [|done]. simpl. by rewrite (run_raises _ _ _ _ _ Hturn).
Qed.

Lemma report_stateless_outcome resp w :
  ((report_stateless resp w).1 = Returns None ↔ status_code resp ≠ 200)
  ∧ ∀ result,
      (report_stateless resp w).1 = Returns (Some result)
      ↔ status_code resp = 200 ∧ json_body resp = Some result
        ∧ presentable result = true.
Proof.
  unfold report_stateless. destruct (status_code resp =? 200) eqn:Hstatus; cbn [negb].
  - apply Z.eqb_eq in Hstatus. unfold response_json.
    destruct (json_body resp) as [result|].
    + rewrite run_ret.
      assert (∀ o, ((print_result result ≫= λ _, mret (Some result)) w).1 = Returns o
                   ↔ o = Some result ∧ presentable result = true) as Hprint.
      { intros o. rewrite fst_bind, <-(print_result_outcome result w).
        destruct (print_result result w) as [[[]|e] w1]; simpl; [|naive_solver].
        split; [by intros [= <-] | by intros [-> _]]. }
      split.
      * rewrite Hprint. naive_solver.
      * intros result'. rewrite Hprint. naive_solver.
    + rewrite run_lift. split; [done|]. intros result'. naive_solver.
  - apply Z.eqb_neq in Hstatus. rewrite run_print. simpl.
    split; [done|]. intros result'. naive_solver.
Qed.

(** X5.  The result of [query_stateless] is decided by the reply to its
    request: it is [None] exactly when the status is not 200; it is the
    decoded body exactly when the status is 200, the body decodes and
    [print_result] can print it; and a transport failure raises
    [ConnectionError]. *)
Theorem query_stateless_result notebook_id query model top_k max_sources rr sr w :
  let reply :=
    server (sent w ++
              [stateless_request w notebook_id query model top_k max_sources rr sr]) in
  let run := query_stateless notebook_id query model top_k max_sources rr sr w in
  (run.1 = Returns None ↔ ∃ resp, reply = Answered resp ∧ status_code resp ≠ 200)
  ∧ (∀ result,
       run.1 = Returns (Some result)
       ↔ ∃ resp, reply = Answered resp ∧ status_code resp = 200
                 ∧ json_body resp = Some result ∧ presentable result = true)
  ∧ (reply = NoAnswer → run.1 = Raises ConnectionError).
Proof.
  simpl.
  destruct (query_stateless_run notebook_id query model top_k max_sources rr sr w)
    as (wb & Hq & ->).
  destruct Hq as (_ & _ & _ & Hs). rewrite app_nil_r in Hs.
  rewrite run_send, Hs. destruct (server _) as [resp|].
  - destruct (report_stateless_outcome resp
                (with_request
                   (stateless_request w notebook_id query model top_k max_sources
                      rr sr) wb)) as [Hnone Hsome].
    split; [|split; [|done]].
    + rewrite Hnone. naive_solver.
    + intros result. rewrite Hsome. naive_solver.
  - split; [naive_solver|]. split; [naive_solver | done].
Qed.

(* ================================================================== *)
(** ** Which listings [list_notebooks] returns *)

Lemma print_notebook_outcome nb w :
  (print_notebook nb w).1 = Returns tt ↔ printable_notebook nb = true.
Proof.
  unfold print_notebook, printable_notebook.
  destruct nb as [|b|n|x|s|l|d]; try (by rewrite run_lift).
  rewrite run_lift. cbn [py_getitem].
  destruct (dict_lookup "id" d); [|done]. rewrite run_print, run_lift. cbn [py_getitem].
  destruct (dict_lookup "name" d); [|done]. rewrite run_print, run_lift.
  cbn [py_getitem].
  destruct (dict_lookup "document_count" d); [|done]. rewrite run_print, run_lift.
  cbn [py_getitem].
  destruct (dict_lookup "created_at" d); [|done]. by rewrite !run_print.
Qed.

Lemma forallb_chars ok s :
  (∀ c, ok (VStr c) = false) → forallb ok (chars s) = String.eqb s "".
Proof. intros Hok. destruct s as [|c s]; [done|]. simpl. by rewrite Hok. Qed.

(** The loop of [report_notebooks] and its [return]. *)
Lemma listed_loop_outcome (items : list value) (listed notebooks : value) w :
  ((for_each items print_notebook ≫= λ _, mret listed) w).1 = Returns notebooks
  ↔ notebooks = listed ∧ forallb printable_notebook items = true.
Proof.
  rewrite fst_bind.
  rewrite <-(for_each_outcome printable_notebook print_notebook
               print_notebook_outcome items w).
  destruct (for_each items print_notebook w) as [[[]|e] w1]; simpl.
  - split; [by intros [= <-] | by intros [-> _]].
  - split; [done | by intros [_ ?]].
Qed.

Lemma report_notebooks_outcome resp w notebooks :
  (report_notebooks resp w).1 = Returns notebooks
  ↔ (status_code resp ≠ 200 ∧ notebooks = VList [])
    ∨ (status_code resp = 200
       ∧ ∃ d, json_body resp = Some (VDict d)
              ∧ notebooks = default (VList []) (dict_lookup "notebooks" d)
              ∧ printable_listing notebooks = true).
Proof.
  unfold report_notebooks. destruct (status_code resp =? 200) eqn:Hstatus; cbn [negb].
  2:{ apply Z.eqb_neq in Hstatus. rewrite run_print. cbn [mret Py_ret fst]. split.
      - intros [= <-]. by left.
      - intros [[_ ->]|[? _]]; done. }
  apply Z.eqb_eq in Hstatus.
  assert (∀ Q : Prop,
            (Q ↔ ∃ d, json_body resp = Some (VDict d)
                      ∧ notebooks = default (VList []) (dict_lookup "notebooks" d)
                      ∧ printable_listing notebooks = true) →
            Q ↔ (status_code resp ≠ 200 ∧ notebooks = VList [])
                ∨ (status_code resp = 200
                   ∧ ∃ d, json_body resp = Some (VDict d)
                          ∧ notebooks = default (VList []) (dict_lookup "notebooks" d)
                          ∧ printable_listing notebooks = true)) as Hwrap.
  { intros Q HQ. split.
    - intros HQ'. right. split; [done|]. by apply HQ.
    - intros [[? _]|[_ ?]]; [done|]. by apply HQ. }
  apply Hwrap. clear Hwrap. unfold response_json.
  destruct (json_body resp) as [data|].
  2:{ rewrite run_lift. split; [done | by intros (? & ? & _)]. }
  rewrite run_ret, run_lift.
  destruct data as [|b|n|x|s|l|d];
    try (split; [done | by intros (? & ? & _)]).
  cbn [py_get]. set (listed := default (VList []) (dict_lookup "notebooks" d)).
  assert ((∃ d0, Some (VDict d) = Some (VDict d0)
                 ∧ notebooks = default (VList []) (dict_lookup "notebooks" d0)
                 ∧ printable_listing notebooks = true)
          ↔ notebooks = listed ∧ printable_listing listed = true) as ->.
  { split.
    - intros (d0 & [= <-] & -> & ?). done.
    - intros [-> ?]. by exists d. }
  rewrite run_lift.
  destruct listed as [|b|n|x|s|l|d'] eqn:Hlisted; cbn [py_len];
    try (split; [done | by intros [_ ?]]); rewrite run_print, run_lift; cbn [py_iter];
    rewrite listed_loop_outcome.
  - cbn [printable_listing]. by rewrite forallb_chars.
  - done.
  - cbn [printable_listing]. by destruct d' as [|[k v] d'].
Qed.

(** X6.  [list_notebooks] returns a value exactly in two cases: the
    service answered with a status other than 200, and the value is the
    empty list; or it answered 200 with a JSON object, and the value is
    its [notebooks] field (the empty list when the field is missing),
    provided every listed notebook is an object with the fields [id],
    [name], [document_count] and [created_at].  In every other case
    ([notebooks] of another type, a notebook without one of the fields, a
    body that is not a JSON object, a transport failure) it raises. *)
Theorem list_notebooks_result w notebooks :
  (list_notebooks w).1 = Returns notebooks
  ↔ ∃ resp,
      server (sent w ++ [listing_request w]) = Answered resp
      ∧ ((status_code resp ≠ 200 ∧ notebooks = VList [])
         ∨ (status_code resp = 200
            ∧ ∃ d, json_body resp = Some (VDict d)
                   ∧ notebooks = default (VList []) (dict_lookup "notebooks" d)
                   ∧ printable_listing notebooks = true)).
Proof.
  destruct (list_notebooks_run w) as (wb & Hq & ->).
  destruct Hq as (_ & _ & _ & Hs). rewrite app_nil_r in Hs.
  rewrite run_send, Hs. destruct (server _) as [resp|].
  - rewrite report_notebooks_outcome. split; [by eauto|]. by intros (? & [= <-] & ?).
  - split; [done | by intros (? & ? & ?)].
Qed.

(* ================================================================== *)
(** ** The payload of a turn *)

(** X7.  The body of the request of a conversational turn has the keys
    [notebook_id], [query], [session_id], [include_sources],
    [max_sources] and [max_history], the key [model] exactly when the
    caller's model is truthy, and no other key: a turn never carries
    [top_k], [reranker_enabled] or [skip_raptor]. *)
Theorem conversational_payload_keys notebook_id query session_id model max_history
    field :
  is_Some (conversational_payload notebook_id query session_id model max_history
             !! field)
  ↔ field = "notebook_id" ∨ field = "query" ∨ field = "session_id"
    ∨ field = "include_sources" ∨ field = "max_sources" ∨ field = "max_history"
    ∨ (field = "model" ∧ truthy_str model = true).
Proof.
  unfold conversational_payload.
  destruct (decide (field = "notebook_id")) as [->|?];
    [destruct (truthy_str model); simplify_map_eq; split; eauto|].
  destruct (decide (field = "query")) as [->|?];
    [destruct (truthy_str model); simplify_map_eq; split; eauto|].
  destruct (decide (field = "session_id")) as [->|?];
    [destruct (truthy_str model); simplify_map_eq; split; eauto 6|].
  destruct (decide (field = "include_sources")) as [->|?];
    [destruct (truthy_str model); simplify_map_eq; split; eauto 6|].
  destruct (decide (field = "max_sources")) as [->|?];
    [destruct (truthy_str model); simplify_map_eq; split; eauto 7|].
  destruct (decide (field = "max_history")) as [->|?];
    [destruct (truthy_str model); simplify_map_eq; split; eauto 8|].
  destruct (decide (field = "model")) as [->|?].
  { destruct (truthy_str model) eqn:Hmodel.
    - rewrite lookup_insert_eq. split; [intros _; by do 6 right | by eauto].
    - rewrite ?lookup_insert_ne, lookup_empty by done.
      split; [by intros [? ?]|]. intros [?|[?|[?|[?|[?|[?|[_ ?]]]]]]]; done. }
  assert (∀ m : gmap string value,
            m = <["max_history":=VInt max_history]>
                  (<["max_sources":=VInt 2]>
                     (<["include_sources":=VBool true]>
                        (<["session_id":=VStr session_id]>
                           (<["query":=VStr query]>
                              (<["notebook_id":=notebook_id]> ∅))))) →
            (if truthy_str model then <["model":=value_of_str model]> m else m)
              !! field = None) as Hnone.
  { intros m ->. destruct (truthy_str model);
      by rewrite ?lookup_insert_ne, lookup_empty. }
  rewrite (Hnone _ eq_refl). split; [by intros [? ?]|].
  intros [?|[?|[?|[?|[?|[?|[? _]]]]]]]; done.
Qed.

(* ================================================================== *)
(** ** The modes of [main] *)

Lemma quiet_sent w w' : quiet w w' → sent w' = sent w.
Proof. intros (_ & _ & _ & ->). apply app_nil_r. Qed.

Lemma listing_request_globals w w' :
  same_globals w w' → listing_request w' = listing_request w.
Proof. intros (Hb & _ & _ & Hh). unfold listing_request. by rewrite Hb, Hh. Qed.

Lemma stateless_request_globals w w' notebook_id query model top_k max_sources rr sr :
  same_globals w w' →
  stateless_request w' notebook_id query model top_k max_sources rr sr =
  stateless_request w notebook_id query model top_k max_sources rr sr.
Proof. intros (Hb & _ & _ & Hh). unfold stateless_request. by rewrite Hb, Hh. Qed.

(** [main] on the path that reaches the listing. *)
Lemma main_normal argv w args :
  (parse_args argv w).1 = Returns args →
  args_list_models args = false → args_list_notebooks args = false →
  ∃ wb, quiet (configured argv w) wb
    ∧ main argv w = (list_notebooks ≫= after_listing args) wb.
Proof.
  intros Hargs Hlm Hln. destruct (main_run_configured argv w args Hargs) as [-> _].
  apply main_run_normal; done.
Qed.

Lemma list_notebooks_reply w :
  ∃ wb, quiet w wb
    ∧ list_notebooks w =
      match server (sent w ++ [listing_request w]) with
      | Answered resp => report_notebooks resp (with_request (listing_request w) wb)
      | NoAnswer => (Raises ConnectionError, with_request (listing_request w) wb)
      end.
Proof.
  destruct (list_notebooks_run w) as (wb & Hq & ->). exists wb. split; [done|].
  by rewrite run_send, (quiet_sent _ _ Hq).
Qed.

Lemma for_each_print_lines {A} (l : list A) (line : A → string) w :
  ∃ w', for_each l (λ x, print (line x)) w = (Returns tt, w')
    ∧ stdout w' = stdout w ++ map line l.
Proof.
  revert w. induction l as [|x l IH]; intros w; simpl.
  - eexists. split; [done|]. by rewrite app_nil_r.
  - rewrite run_print. destruct (IH (with_line (line x) w)) as (w' & -> & Hout).
    exists w'. split; [done|]. rewrite Hout. cbn [stdout with_line].
    by rewrite <-app_assoc.
Qed.

Lemma catalogue_loop (catalogue : list (string * list string)) w :
  ∃ w',
    for_each catalogue (λ pm,
      print (LF +:+ str_upper (fst pm) +:+ ":");;
      for_each (snd pm) (λ model, print ("  - " +:+ model))) w = (Returns tt, w')
    ∧ stdout w' = stdout w ++ catalogue_lines catalogue.
Proof.
  revert w. induction catalogue as [|pm catalogue IH]; intros w.
  - eexists. split; [done|]. by rewrite app_nil_r.
  - cbn [for_each]. rewrite run_assoc, run_print.
    destruct (for_each_print_lines (snd pm) (λ model, "  - " +:+ model)
                (with_line (LF +:+ str_upper (fst pm) +:+ ":") w))
      as (w1 & Hmodels & Hout1).
    rewrite (run_returns _ _ _ _ _ Hmodels).
    destruct (IH w1) as (w' & -> & Hout). exists w'. split; [done|].
    rewrite Hout, Hout1. cbn [stdout with_line].
    change (catalogue_lines (pm :: catalogue)) with
      (((LF +:+ str_upper (fst pm) +:+ ":") :: map (λ model, "  - " +:+ model) (snd pm))
         ++ catalogue_lines catalogue).
    by rewrite <-!app_assoc.
Qed.

Lemma list_models_lines w :
  ∃ w', list_models w = (Returns tt, w')
    ∧ stdout w' =
      stdout w ++ [LF +:+ rule_eq; "Available Models"; rule_eq]
               ++ catalogue_lines AVAILABLE_MODELS ++ [""].
Proof.
  unfold list_models. rewrite !run_print.
  match goal with
  | |- context [(for_each AVAILABLE_MODELS _ ≫= _) ?w0] =>
      destruct (catalogue_loop AVAILABLE_MODELS w0) as (w1 & Hloop & Hout)
  end.
  rewrite (run_returns _ _ _ _ _ Hloop). eexists. split; [done|].
  cbn [stdout with_line] in *. rewrite Hout. by rewrite <-!app_assoc.
Qed.

(** X8.  With [--list-models], [main] prints the catalogue of models
    (each provider in upper case, followed by its models) and returns,
    whatever the other options are: nothing is sent to the service and no
    session id is drawn. *)
Theorem list_models_offline argv w args :
  (parse_args argv w).1 = Returns args →
  args_list_models args = true →
  ∃ w',
    main argv w = (Returns tt, w')
    ∧ sent w' = sent w
    ∧ uuids_drawn w' = uuids_drawn w
    ∧ stdout w' =
      stdout w ++ [LF +:+ rule_eq; "Available Models"; rule_eq]
               ++ catalogue_lines AVAILABLE_MODELS ++ [""].
Proof.
  intros Hargs Hlm. destruct (main_run_configured argv w args Hargs) as [-> _].
  unfold main_run. rewrite Hlm.
  destruct (list_models_lines (configured argv w)) as (w' & Hrun & Hout).
  destruct (list_models_run (configured argv w)) as (w'' & Hrun' & Hq).
  rewrite Hrun in Hrun'. injection Hrun' as <-.
  exists w'. split; [done|]. destruct Hq as (_ & Hu & _ & Hs).
  rewrite app_nil_r in Hs. done.
Qed.

(** X9.  With [--list-notebooks] (and without [--list-models]), [main]
    is the listing alone: it sends the one GET request of the listing and
    nothing else, draws no session id, and ends normally exactly when
    [list_notebooks] returns; a query given with [--query] is not run. *)
Theorem list_notebooks_only argv w args :
  (parse_args argv w).1 = Returns args →
  args_list_models args = false →
  args_list_notebooks args = true →
  let wc := configured argv w in
  let run := main argv w in
  sent run.2 = sent w ++ [listing_request wc]
  ∧ uuids_drawn run.2 = uuids_drawn w
  ∧ stdout run.2 = stdout (list_notebooks wc).2
  ∧ (run.1 = Returns tt ↔ ∃ notebooks, (list_notebooks wc).1 = Returns notebooks).
Proof.
  intros Hargs Hlm Hln. simpl.
  destruct (main_run_configured argv w args Hargs) as [-> _].
  unfold main_run. rewrite Hlm, Hln.
  pose proof (list_notebooks_effect (configured argv w)) as (_ & Hu & _ & Hs).
  rewrite bind_ret_world, fst_bind.
  split; [done|]. split; [done|]. split; [done|].
  destruct (list_notebooks (configured argv w)) as [[notebooks|e] w']; simpl.
  - split; [by eauto | done].
  - split; [done | by intros [? ?]].
Qed.

(** X10.  When the transport fails on the listing, [main] (without
    [--list-models]) raises [ConnectionError]: nothing catches it, and
    the GET of the listing is the only request of the run. *)
Theorem listing_transport_failure argv w args :
  (parse_args argv w).1 = Returns args →
  args_list_models args = false →
  server (sent w ++ [listing_request (configured argv w)]) = NoAnswer →
  ∃ w',
    main argv w = (Raises ConnectionError, w')
    ∧ sent w' = sent w ++ [listing_request (configured argv w)].
Proof.
  intros Hargs Hlm Hreply.
  pose proof (configured_sent argv w) as Hsent.
  destruct (args_list_notebooks args) eqn:Hln.
  - destruct (main_run_configured argv w args Hargs) as [-> _].
    unfold main_run. rewrite Hlm, Hln.
    destruct (list_notebooks_reply (configured argv w)) as (wb & Hq & Hrun).
    rewrite Hsent, Hreply in Hrun. rewrite (run_raises _ _ _ _ _ Hrun).
    eexists. split; [done|]. simpl. by rewrite (quiet_sent _ _ Hq), Hsent.
  - destruct (main_normal argv w args Hargs Hlm Hln) as (wb & Hq & ->).
    destruct (list_notebooks_reply wb) as (wb' & Hq' & Hrun).
    rewrite (listing_request_globals _ _ (quiet_globals _ _ Hq)) in Hrun.
    rewrite (quiet_sent _ _ Hq), Hsent, Hreply in Hrun.
    rewrite (run_raises _ _ _ _ _ Hrun).
    eexists. split; [done|]. simpl.
    by rewrite (quiet_sent _ _ Hq'), (quiet_sent _ _ Hq), Hsent.
Qed.

(** X11.  When the service answers the listing with a status other than
    200, [main] (on the path that reaches the listing) reports the status
    and the body, then prints that no notebooks were found, and returns
    normally: the GET of the listing is the only request of the run. *)
Theorem listing_failure_ends_run argv w args resp :
  (parse_args argv w).1 = Returns args →
  args_list_models args = false →
  args_list_notebooks args = false →
  server (sent w ++ [listing_request (configured argv w)]) = Answered resp →
  status_code resp ≠ 200 →
  ∃ w' lines,
    main argv w = (Returns tt, w')
    ∧ sent w' = sent w ++ [listing_request (configured argv w)]
    ∧ stdout w' =
      stdout w ++ lines
        ++ [ "Error: " +:+ pretty (status_code resp) +:+ " - " +:+ text resp;
             LF +:+ "No notebooks found. Please create a notebook first." ].
Proof.
  intros Hargs Hlm Hln Hreply Hstatus.
  pose proof (configured_sent argv w) as Hsent.
  pose proof (configured_stdout argv w) as Hstdout.
  destruct (main_normal argv w args Hargs Hlm Hln) as (wb & Hq & ->).
  destruct (list_notebooks_reply wb) as (wb' & Hq' & Hrun).
  rewrite (listing_request_globals _ _ (quiet_globals _ _ Hq)) in Hrun.
  rewrite (quiet_sent _ _ Hq), Hsent, Hreply in Hrun.
  unfold report_notebooks in Hrun. apply Z.eqb_neq in Hstatus.
  rewrite Hstatus in Hrun. cbn [negb] in Hrun. rewrite run_print in Hrun.
  rewrite (run_returns _ _ _ _ _ Hrun), after_listing_empty by done.
  assert (quiet (configured argv w) wb') as (_ & _ & [lines Hlines] & _)
    by (by etrans).
  eexists _, lines. split; [done|]. simpl. split.
  - by rewrite (quiet_sent _ _ Hq'), (quiet_sent _ _ Hq), Hsent.
  - by rewrite Hlines, Hstdout, <-!app_assoc.
Qed.

(* ================================================================== *)
(** ** The plan of requests *)

Lemma planned_demo_effect new args id w w' :
  effect new w w' → planned_demo args id w' = planned_demo args id w.
Proof.
  intros ((Hb & _ & _ & Hh) & Hu & _).
  unfold planned_demo, stateless_request, turn_request. by rewrite Hb, Hh, Hu.
Qed.

(** The demo sends a prefix of its plan: the whole plan when it ends
    normally, and at least the first request when there is one. *)
Lemma run_demo_plan args id w :
  let run := run_demo args id (negb (args_no_reranker args))
               (negb (args_include_raptor args)) w in
  let plan := planned_demo args id w in
  ∃ n, (n ≤ length plan)%nat
    ∧ (plan ≠ [] → (0 < n)%nat)
    ∧ same_globals w run.2
    ∧ (uuids_drawn w ≤ uuids_drawn run.2 ≤ S (uuids_drawn w))%nat
    ∧ sent run.2 = sent w ++ take n plan
    ∧ (run.1 = Returns tt → n = length plan).
Proof.
  simpl. unfold run_demo, planned_demo.
  destruct (args_no_demo args); cbn [negb when].
  { exists 0%nat. rewrite run_ret, !run_print. simpl.
    split; [lia|]. split; [done|]. split; [exact (same_globals_refl w)|].
    split; [lia|]. by rewrite app_nil_r. }
  rewrite !run_assoc.
  pose proof (query_stateless_effect id demo_query (args_model args)
                (args_top_k args) (args_max_sources args)
                (negb (args_no_reranker args)) (negb (args_include_raptor args)) w)
    as Hqs.
  destruct (query_stateless _ _ _ _ _ _ _ w) as [[r|e] w1] eqn:Hrun; cbn [snd] in Hqs.
  2:{ rewrite (run_raises _ _ _ _ _ Hrun). exists 1%nat.
      destruct Hqs as (Hg & Hu & _ & Hs). simpl.
      split; [lia|]. split; [lia|]. split; [exact Hg|]. split; [lia|]. done. }
  rewrite (run_returns _ _ _ _ _ Hrun).
  destruct (query_conversational_run id demo_conversation (args_model args)
              (args_max_history args) w1) as (wb & Hg & Hsent & _ & Hu & Hqc).
  destruct (turns_effect id (uuid4 (uuids_drawn w1)) (args_model args)
              (args_max_history args) (enumerate 1 demo_conversation) wb)
    as (n & Hn & _ & Heff & Hret).
  rewrite <-Hqc in Heff, Hret.
  rewrite map_snd_enumerate in Heff. rewrite length_enumerate in Hn, Hret.
  destruct Hqs as (Hg1 & Hu1 & _ & Hs1).
  destruct Heff as (Hg2 & Hu2 & _ & Hs2).
  assert (same_globals w (query_conversational id demo_conversation
                            (args_model args) (args_max_history args) w1).2) as Hgl.
  { eapply same_globals_trans; [exact Hg1|].
    eapply same_globals_trans; [exact Hg | exact Hg2]. }
  assert (∀ q, turn_request wb id (uuid4 (uuids_drawn w1)) (args_model args)
                 (args_max_history args) q
               = turn_request w id (uuid4 (uuids_drawn w)) (args_model args)
                   (args_max_history args) q) as Hreq.
  { intros q. rewrite Hu1. apply turn_request_globals.
    eapply same_globals_trans; [exact Hg1 | exact Hg]. }
  rewrite (List.map_ext _ _ Hreq), Hsent, Hs1, <-app_assoc in Hs2.
  exists (S n). rewrite length_cons, length_map.
  destruct (query_conversational _ _ _ _ w1) as [[[]|e] w2] eqn:Hrun2;
    cbn [fst snd] in *.
  - rewrite (run_returns _ _ _ _ _ Hrun2), !run_print.
    cbn [fst snd firstn]. rewrite firstn_map.
    split; [lia|]. split; [lia|]. split; [exact Hgl|].
    split; [simpl; lia|].
    split; [exact Hs2|]. by rewrite (Hret eq_refl).
  - rewrite (run_raises _ _ _ _ _ Hrun2).
    cbn [fst snd firstn]. rewrite firstn_map.
    split; [lia|]. split; [lia|]. split; [exact Hgl|]. split; [lia|].
    split; [exact Hs2 | done].
Qed.

Lemma run_queries_plan args id w :
  let run := run_queries args id w in
  let plan := planned_queries args id w in
  ∃ n, (n ≤ length plan)%nat
    ∧ (plan ≠ [] → (0 < n)%nat)
    ∧ same_globals w run.2
    ∧ (uuids_drawn w ≤ uuids_drawn run.2 ≤ S (uuids_drawn w))%nat
    ∧ sent run.2 = sent w ++ take n plan
    ∧ (run.1 = Returns tt → n = length plan).
Proof.
  simpl. unfold run_queries, planned_queries. cbv zeta.
  destruct (truthy_str (args_query args)).
  2:{ rewrite app_nil_l. apply run_demo_plan. }
  pose proof (query_stateless_effect id (default "" (args_query args))
                (args_model args) (args_top_k args) (args_max_sources args)
                (negb (args_no_reranker args)) (negb (args_include_raptor args)) w)
    as Hqs.
  destruct (query_stateless _ _ _ _ _ _ _ w) as [[r|e] w1] eqn:Hrun; cbn [snd] in Hqs.
  2:{ rewrite (run_raises _ _ _ _ _ Hrun). exists 1%nat.
      destruct Hqs as (Hg & Hu & _ & Hs). simpl.
      split; [lia|]. split; [lia|]. split; [exact Hg|]. split; [lia|]. done. }
  rewrite (run_returns _ _ _ _ _ Hrun).
  rewrite <-(planned_demo_effect _ args id w w1 Hqs).
  destruct Hqs as (Hg1 & Hu1 & _ & Hs1).
  destruct (args_no_demo args) eqn:Hnd.
  - rewrite !run_print. exists 1%nat. unfold planned_demo. rewrite Hnd. simpl.
    split; [lia|]. split; [lia|]. split; [exact Hg1|]. split; [lia|]. done.
  - destruct (run_demo_plan args id w1) as (n & Hn & _ & Hg2 & Hu2 & Hs2 & Hret).
    cbv zeta in *. exists (S n). simpl. rewrite Hs2, Hs1, <-app_assoc.
    split; [lia|]. split; [lia|].
    split; [eapply same_globals_trans; [exact Hg1 | exact Hg2]|]. split; [lia|].
    split; [done|]. intros Hr. by rewrite (Hret Hr).
Qed.

(** X12.  [run_queries] follows its plan: the custom query when one is
    given (a truthy [--query]), then, unless [--no-demo], the stateless
    demo query and the turns of the demo conversation under the session
    id drawn for it.  The requests it sends are the first [n] of the
    plan, in order: all of them when it ends normally, and at least the
    first one when the plan is not empty.  It draws at most one UUID. *)
Theorem queries_follow_plan args notebook_id w :
  let run := run_queries args notebook_id w in
  let plan := planned_queries args notebook_id w in
  ∃ n, (n ≤ length plan)%nat
    ∧ (plan ≠ [] → (0 < n)%nat)
    ∧ (uuids_drawn w ≤ uuids_drawn run.2 ≤ S (uuids_drawn w))%nat
    ∧ sent run.2 = sent w ++ take n plan
    ∧ (run.1 = Returns tt → n = length plan).
Proof.
  destruct (run_queries_plan args notebook_id w) as (n & ? & ? & _ & ? & ? & ?).
  by exists n.
Qed.

Lemma planned_queries_effect new args id w w' :
  effect new w w' → planned_queries args id w' = planned_queries args id w.
Proof.
  intros Heff. unfold planned_queries.
  rewrite (planned_demo_effect _ _ _ _ _ Heff).
  destruct Heff as ((Hb & _ & _ & Hh) & _). unfold stateless_request.
  by rewrite Hb, Hh.
Qed.

(** Against a service that fails every request, a stateless query
    returns [None]. *)
Lemma failing_stateless notebook_id query model top_k max_sources rr sr w :
  (∀ history, ∃ resp, server history = Answered resp ∧ status_code resp ≠ 200) →
  ∃ w', query_stateless notebook_id query model top_k max_sources rr sr w
        = (Returns None, w').
Proof.
  intros Hfail.
  destruct (query_stateless_run notebook_id query model top_k max_sources rr sr w)
    as (wb & _ & ->).
  rewrite run_send.
  destruct (Hfail (sent wb ++
                     [stateless_request w notebook_id query model top_k
                        max_sources rr sr])) as (resp & -> & Hstatus).
  unfold report_stateless. apply Z.eqb_neq in Hstatus. rewrite Hstatus.
  cbn [negb]. rewrite run_print. by eexists.
Qed.

Lemma failing_demo_returns args id rr sr w :
  (∀ history, ∃ resp, server history = Answered resp ∧ status_code resp ≠ 200) →
  (run_demo args id rr sr w).1 = Returns tt.
Proof.
  intros Hfail. unfold run_demo. destruct (args_no_demo args); cbn [negb when].
  { by rewrite run_ret, !run_print. }
  rewrite !run_assoc.
  destruct (failing_stateless id demo_query (args_model args) (args_top_k args)
              (args_max_sources args) rr sr w Hfail) as (w1 & Hqs).
  rewrite (run_returns _ _ _ _ _ Hqs).
  pose proof (failing_service_conversation id demo_conversation (args_model args)
                (args_max_history args) w1 Hfail) as [Hret _].
  destruct (query_conversational _ _ _ _ w1) as [[[]|e] w2] eqn:Hqc; [|done].
  by rewrite (run_returns _ _ _ _ _ Hqc), !run_print.
Qed.

Lemma failing_queries_return args id w :
  (∀ history, ∃ resp, server history = Answered resp ∧ status_code resp ≠ 200) →
  (run_queries args id w).1 = Returns tt.
Proof.
  intros Hfail. unfold run_queries. cbv zeta.
  destruct (truthy_str (args_query args)); [|by apply failing_demo_returns].
  destruct (failing_stateless id (default "" (args_query args)) (args_model args)
              (args_top_k args) (args_max_sources args)
              (negb (args_no_reranker args)) (negb (args_include_raptor args))
              w Hfail) as (w1 & Hqs).
  rewrite (run_returns _ _ _ _ _ Hqs).
  destruct (args_no_demo args) eqn:Hnd; [by rewrite !run_print|].
  by apply failing_demo_returns.
Qed.

(** X13.  No failure of a query stops the run: against a service that
    answers every request with a status other than 200, [run_queries]
    ends normally and has sent every request of its plan, in order. *)
Theorem failures_do_not_stop_queries args notebook_id w :
  (∀ history, ∃ resp, server history = Answered resp ∧ status_code resp ≠ 200) →
  let run := run_queries args notebook_id w in
  run.1 = Returns tt
  ∧ sent run.2 = sent w ++ planned_queries args notebook_id w.
Proof.
  intros Hfail. simpl.
  pose proof (failing_queries_return args notebook_id w Hfail) as Hret.
  split; [done|].
  destruct (run_queries_plan args notebook_id w) as (n & _ & _ & _ & _ & -> & Hn).
  by rewrite (Hn Hret), firstn_all.
Qed.

(** X14.  When the listing succeeds and the requested notebook is among
    the listed ones, [main] (without [--list-models] and
    [--list-notebooks]) sends the GET of the listing and then follows the
    plan of [run_queries] for the requested notebook: the requests of the
    run are the listing and the first [n] requests of the plan, all of
    them when the run ends normally and at least one when the plan is
    not empty. *)
Theorem listed_notebook_queried argv w args resp d items :
  (parse_args argv w).1 = Returns args →
  args_list_models args = false →
  args_list_notebooks args = false →
  server (sent w ++ [listing_request (configured argv w)]) = Answered resp →
  status_code resp = 200 →
  json_body resp = Some (VDict d) →
  dict_lookup "notebooks" d = Some (VList items) →
  forallb printable_notebook items = true →
  (∃ nb, nb ∈ items ∧ py_getitem nb "id" = Returns (VStr (args_notebook args))) →
  let wc := configured argv w in
  let plan := planned_queries args (VStr (args_notebook args)) wc in
  let run := main argv w in
  ∃ n, (n ≤ length plan)%nat
    ∧ (plan ≠ [] → (0 < n)%nat)
    ∧ sent run.2 = sent w ++ listing_request wc :: take n plan
    ∧ (run.1 = Returns tt → n = length plan).
Proof.
  intros Hargs Hlm Hln Hreply Hstatus Hbody Hfield Hprintable Hlisted. simpl.
  pose proof (configured_sent argv w) as Hsent.
  destruct (main_normal argv w args Hargs Hlm Hln) as (wb & Hq & ->).
  pose proof (list_notebooks_effect wb) as Heff.
  rewrite (listing_request_globals _ _ (quiet_globals _ _ Hq)) in Heff.
  pose proof (effect_trans [] [_] _ _ _ Hq Heff) as Hlist. cbn [app] in Hlist.
  assert ((list_notebooks wb).1 = Returns (VList items)) as Hret.
  { destruct (list_notebooks_reply wb) as (wb' & Hq' & ->).
    rewrite (listing_request_globals _ _ (quiet_globals _ _ Hq)).
    rewrite (quiet_sent _ _ Hq), Hsent, Hreply.
    apply report_notebooks_outcome. right. split; [done|].
    exists d. split; [done|]. rewrite Hfield. by split. }
  destruct (list_notebooks wb) as [[notebooks|e] wl] eqn:Hrun; [|done].
  cbn [fst snd] in *. injection Hret as ->.
  rewrite (run_returns _ _ _ _ _ Hrun).
  destruct items as [|first others].
  { destruct Hlisted as (nb & Hnb & _). by apply elem_of_nil in Hnb. }
  destruct (list_notebooks_listed wb (VList (first :: others)))
    as (items' & [= <-] & Hhave); [by rewrite Hrun | done |].
  destruct (listed_ids _ Hhave) as (ids & Hids & Hall).
  rewrite (after_listing_nonempty _ _ _ _ _ Hids).
  rewrite (py_in_true _ _ _ Hall Hlisted).
  destruct (run_queries_plan args (VStr (args_notebook args)) wl)
    as (n & Hn & Hpos & _ & _ & Hplan & Hall_sent).
  rewrite (planned_queries_effect _ _ _ _ _ Hlist) in Hn, Hpos, Hplan, Hall_sent.
  exists n. split; [done|]. split; [done|]. split; [|done].
  destruct Hlist as (_ & _ & _ & Hs). by rewrite Hplan, Hs, Hsent, <-app_assoc.
Qed.

(** X15.  [main] assigns [BASE_URL] and [API_KEY] from the options
    (each defaulting to the value the global had) and rebuilds [HEADERS]
    from the key; nothing afterwards changes a global.  At the end of
    every run, however it ends, the two globals hold those values,
    [HEADERS] is the pair of headers built from [API_KEY], and
    [NOTEBOOK_ID] is what it was, also when [--notebook] is given. *)
Theorem main_settles_globals argv w :
  let w' := (main argv w).2 in
  BASE_URL w' = default (BASE_URL w) (opt_url argv)
  ∧ API_KEY w' = default (API_KEY w) (opt_api_key argv)
  ∧ HEADERS w' = make_headers (API_KEY w')
  ∧ NOTEBOOK_ID w' = NOTEBOOK_ID w.
Proof.
  simpl. destruct (parse_args_run argv w) as (args & Hrun & Hurl & Hkey & _).
  assert ((parse_args argv w).1 = Returns args) as Hargs by (by rewrite Hrun).
  destruct (main_run_configured argv w args Hargs) as [-> Hconf].
  destruct (main_run_notebook args (configured argv w))
    as (id & _ & (Hb & Hk & Hn & Hh) & _).
  rewrite Hb, Hk, Hn, Hh, Hconf, <-Hurl, <-Hkey. done.
Qed.

(* ================================================================== *)
(** ** The timing breakdown *)

Lemma insert_by_key_perm kv l : insert_by_key kv l ≡ₚ kv :: l.
Proof.
  induction l as [|kv' l IH]; simpl; [done|].
  destruct (String.leb _ _); [done|]. by rewrite IH, Permutation_swap.
Qed.

Lemma sorted_items_perm l : sorted_items l ≡ₚ l.
Proof.
  unfold sorted_items. induction l as [|kv l IH]; simpl; [done|].
  by rewrite insert_by_key_perm, IH.
Qed.

Lemma insert_by_key_hd a kv l :
  key_le a kv → HdRel key_le a l → HdRel key_le a (insert_by_key kv l).
Proof.
  intros Hkv Hl. destruct l as [|kv' l]; simpl; [by constructor|].
  destruct (String.leb _ _); constructor; [done|]. by inversion Hl.
Qed.

Lemma insert_by_key_sorted kv l :
  Sorted key_le l → Sorted key_le (insert_by_key kv l).
Proof.
  induction 1 as [|kv' l Hl IH Hhd]; simpl; [by repeat constructor|].
  destruct (String.leb (fst kv) (fst kv')) eqn:Hle.
  - constructor; [by constructor|]. by constructor.
  - constructor; [done|]. apply insert_by_key_hd; [|done].
    unfold key_le. destruct (String.leb_total (fst kv) (fst kv')); congruence.
Qed.

Lemma sorted_items_sorted l : Sorted key_le (sorted_items l).
Proof.
  unfold sorted_items. induction l as [|kv l IH]; simpl; [constructor|].
  by apply insert_by_key_sorted.
Qed.

(** X16.  The timing breakdown of [print_result]: nothing at all for an
    empty [timings] object; otherwise the heading and one line for each
    timing, each timing once, in ascending order of the keys. *)
Theorem timings_in_key_order d w :
  ∃ w',
    print_timings (VDict d) w = (Returns tt, w')
    ∧ stdout w' =
        stdout w ++ match d with
                    | [] => []
                    | _ => (LF +:+ "  Timing Breakdown:")
                           :: map timing_line (sorted_items d)
                    end
    ∧ sorted_items d ≡ₚ d
    ∧ Sorted key_le (sorted_items d).
Proof.
  unfold print_timings. destruct d as [|kv d].
  { eexists. split; [done|]. cbn [sorted_items foldr].
    split; [by rewrite app_nil_r|]. split; [done | constructor]. }
  cbn [py_truthy when]. rewrite run_print, run_lift. cbn [py_items].
  destruct (for_each_print_lines (sorted_items (kv :: d)) timing_line
              (with_line (LF +:+ "  Timing Breakdown:") w)) as (w' & Hrun & Hout).
  exists w'. split; [exact Hrun|]. split.
  - rewrite Hout. cbn [stdout with_line]. by rewrite <-app_assoc.
  - split; [apply sorted_items_perm | apply sorted_items_sorted].
Qed.

(* ================================================================== *)
(** ** The label of a stage *)

Lemma replace_underscore_free s : str_mem "_" (str_replace "_" " " s) = false.
Proof.
  unfold str_replace. induction s as [|c s IH]; [done|].
  cbn [replace_from String.prefix String.length Nat.sub].
  destruct (ascii_dec "_" c) as [<-|Hc].
  - destruct s; exact IH.
  - cbn [str_mem]. rewrite IH, orb_false_r. by apply Ascii.eqb_neq.
Qed.

Lemma title_char_not_underscore c (prev : bool) :
  Ascii.eqb "_" c = false →
  Ascii.eqb "_" (if is_lower c then (if prev then c else to_upper c)
                 else if is_upper c then (if prev then to_lower c else c)
                 else c) = false.
Proof.
  destruct prev, c as [[] [] [] [] [] [] [] []]; vm_compute; congruence.
Qed.

Lemma title_underscore_free prev s :
  str_mem "_" s = false → str_mem "_" (title_from prev s) = false.
Proof.
  revert prev. induction s as [|c s IH]; intros prev; [done|].
  cbn [str_mem title_from]. intros [Hc Hs]%orb_false_elim.
  pose proof (title_char_not_underscore c prev Hc) as Hchar.
  destruct (is_lower c); [|destruct (is_upper c)];
    cbn [str_mem]; by rewrite Hchar, IH.
Qed.

(** X17.  The label of a timing stage never has an underscore, whatever
    the key is. *)
Theorem stage_name_no_underscore key : str_mem "_" (stage_name key) = false.
Proof. apply title_underscore_free, replace_underscore_free. Qed.

(* ================================================================== *)
(** ** The size of a run *)

Lemma planned_queries_length args id w :
  (length (planned_queries args id w) ≤ 5)%nat.
Proof.
  unfold planned_queries, planned_demo.
  destruct (truthy_str (args_query args)), (args_no_demo args); simpl; lia.
Qed.

Lemma planned_queries_post args id w :
  Forall (λ r, req_method r = POST) (planned_queries args id w).
Proof.
  unfold planned_queries, planned_demo.
  destruct (truthy_str (args_query args)), (args_no_demo args);
    repeat constructor.
Qed.

(** What [run_queries] adds to the requests of a run that has sent the
    listing and nothing else. *)
Lemma run_queries_bound args id wc w1 :
  effect [listing_request wc] wc w1 →
  let w' := (run_queries args id w1).2 in
  ∃ posts,
    sent w' = sent wc ++ listing_request wc :: posts
    ∧ (length posts ≤ 5)%nat
    ∧ Forall (λ r, req_method r = POST) posts
    ∧ (uuids_drawn w' ≤ S (uuids_drawn wc))%nat.
Proof.
  intros (_ & Hu & _ & Hs). simpl.
  destruct (run_queries_plan args id w1) as (n & _ & _ & _ & Hu1 & Hplan & _).
  exists (take n (planned_queries args id w1)).
  split; [by rewrite Hplan, Hs, <-app_assoc|]. split.
  - rewrite length_take. pose proof (planned_queries_length args id w1). lia.
  - split; [apply Forall_take, planned_queries_post | lia].
Qed.

(** X18.  Every run of [main], whatever the service answers, sends
    nothing at all or the GET of the listing followed by at most five
    POST requests, and draws at most one UUID. *)
Theorem main_request_bound argv w :
  let wc := configured argv w in
  let w' := (main argv w).2 in
  (sent w' = sent w
   ∨ ∃ posts,
       sent w' = sent w ++ listing_request wc :: posts
       ∧ (length posts ≤ 5)%nat
       ∧ Forall (λ r, req_method r = POST) posts)
  ∧ (uuids_drawn w' ≤ S (uuids_drawn w))%nat.
Proof.
  simpl. destruct (parse_args_run argv w) as (args & Hrun & _).
  assert ((parse_args argv w).1 = Returns args) as Hargs by (by rewrite Hrun).
  destruct (main_run_configured argv w args Hargs) as [-> _].
  pose proof (configured_sent argv w) as Hsent.
  assert (uuids_drawn (configured argv w) = uuids_drawn w) as Huuid by done.
  rewrite <-Hsent, <-Huuid. set (wc := configured argv w). clearbody wc.
  assert (∀ w1, effect [listing_request wc] wc w1 →
            (sent w1 = sent wc
             ∨ ∃ posts,
                 sent w1 = sent wc ++ listing_request wc :: posts
                 ∧ (length posts ≤ 5)%nat
                 ∧ Forall (λ r, req_method r = POST) posts)
            ∧ (uuids_drawn w1 ≤ S (uuids_drawn wc))%nat) as Hlisting_only.
  { intros w1 (_ & Hu & _ & Hs). split; [|lia]. right. exists [].
    split; [done|]. split; [simpl; lia | constructor]. }
  destruct (args_list_models args) eqn:Hlm;
    [|destruct (args_list_notebooks args) eqn:Hln].
  - unfold main_run. rewrite Hlm.
    destruct (list_models_run wc) as (w' & -> & (_ & Hu & _ & Hs)).
    rewrite app_nil_r in Hs. cbn [snd]. split; [by left | lia].
  - unfold main_run. rewrite Hlm, Hln, bind_ret_world.
    apply Hlisting_only, list_notebooks_effect.
  - destruct (main_run_normal args wc Hlm Hln) as (wb & Hq & ->).
    pose proof (list_notebooks_effect wb) as Heff.
    rewrite (listing_request_globals _ _ (quiet_globals _ _ Hq)) in Heff.
    pose proof (effect_trans [] [_] _ _ _ Hq Heff) as Hlist. cbn [app] in Hlist.
    destruct (list_notebooks wb) as [[notebooks|e] wl] eqn:Hnb; cbn [snd] in *.
    2:{ rewrite (run_raises _ _ _ _ _ Hnb). by apply Hlisting_only. }
    rewrite (run_returns _ _ _ _ _ Hnb).
    destruct (py_truthy notebooks) eqn:Htruthy.
    2:{ rewrite after_listing_empty by done. apply Hlisting_only.
        apply (effect_trans [_] [] _ _ _ Hlist), quiet_line. }
    destruct (list_notebooks_listed wb notebooks) as (items & -> & Hhave);
      [by rewrite Hnb | done |].
    destruct items as [|first others]; [done|].
    destruct (listed_ids _ Hhave) as (ids & Hids & _).
    rewrite (after_listing_nonempty _ _ _ _ _ Hids).
    destruct (py_in _ ids).
    + destruct (run_queries_bound args (VStr (args_notebook args)) wc wl Hlist)
        as (posts & ? & ? & ? & ?).
      split; [right; by exists posts | done].
    + apply Forall_cons in Hhave as [[id Hid] _]. rewrite Hid.
      set (wm := with_line _ wl).
      assert (effect [listing_request wc] wc wm) as Hwm.
      { apply (effect_trans [_] [] _ _ _ Hlist), quiet_line. }
      destruct (run_queries_bound args id wc wm Hwm) as (posts & ? & ? & ? & ?).
      split; [right; by exists posts | done].
Qed.

End Script.

(* ================================================================== *)
(** ** Concrete runs *)

(** C1 as stated fails.  Called with every optional parameter left at
    its default, [query_stateless] still puts [max_sources] in the
    payload: the field is present although the caller supplied no
    non-default value for it. *)
Lemma sparse_payload_counterexample :
  ¬ (is_Some (stateless_payload (VStr "abc") "What is the policy?" None None 6
                true true !! "max_sources")
     ↔ supplied_non_default "max_sources" None None 6 true true = true).
Proof.
  intros [Hpresent _].
  assert (is_Some (stateless_payload (VStr "abc") "What is the policy?" None None 6
                     true true !! "max_sources")) as Hsome.
  { pose proof (stateless_payload_fixed (VStr "abc") "What is the policy?" None None 6
                  true true) as (_ & _ & _ & ->). by eexists. }
  specialize (Hpresent Hsome). discriminate Hpresent.
Qed.

(** The other direction fails as well: an empty model name is a
    non-default value, and the field is left out. *)
Lemma empty_model_left_out :
  supplied_non_default "model" (Some "") None 6 true true = true
  ∧ stateless_payload (VStr "abc") "What is the policy?" (Some "") None 6 true true
      !! "model" = None.
Proof. split; [reflexivity|]. by rewrite stateless_payload_model. Qed.

(** C2 fails on the code.  The service answers 200 and the one source of
    the answer has no [score]: [query_stateless] raises [ValueError],
    after printing the name of the source. *)
Theorem missing_score_raises :
  let run :=
    query_stateless (service (listing_of [hr_notebook]) answer_without_score)
      sample_float_repr (VStr "abc") "What is the policy?" None None 6 true true
      (module_init ∅) in
  run.1 = Raises ValueError
  ∧ last (stdout run.2) = Some (LF +:+ "  [1] handbook.pdf").
Proof. split; vm_compute; reflexivity. Qed.

(** With the score present the same run ends normally and prints it with
    three decimals. *)
Lemma complete_answer_printed :
  let run :=
    query_stateless (service (listing_of [hr_notebook]) answer_complete)
      sample_float_repr (VStr "abc") "What is the policy?" None None 6 true true
      (module_init ∅) in
  (∃ result, run.1 = Returns (Some result))
  ∧ "      Score: 0.870" ∈ stdout run.2
  ∧ last (stdout run.2) = Some "      Snippet: Employees may......".
Proof.
  split; [eexists; vm_compute; reflexivity|].
  split; [|vm_compute; reflexivity].
  apply list_elem_of_In. vm_compute. tauto.
Qed.

(** C10 at [top_k = 0]. *)
Lemma falsy_top_k_omitted_witness :
  let svc := service (listing_of [hr_notebook]) failure in
  truthy_int (Some 0) = false
  ∧ (stateless_payload (VStr "abc") "What is the policy?" None (Some 0) 6 true true
       !! "top_k" = None
     ∧ stateless_payload (VStr "abc") "What is the policy?" None (Some 0) 6 true true
       = stateless_payload (VStr "abc") "What is the policy?" None None 6 true true
     ∧ query_stateless svc sample_float_repr (VStr "abc") "What is the policy?" None
         (Some 0) 6 true true (module_init ∅)
       = query_stateless svc sample_float_repr (VStr "abc") "What is the policy?" None
           None 6 true true (module_init ∅)).
Proof.
  intros svc. split; [reflexivity|].
  apply (falsy_top_k_omitted svc sample_float_repr). reflexivity.
Defined.

(** C7 on a service that answers 500. *)
Lemma stateless_failure_witness :
  let svc := service (listing_of [hr_notebook]) failure in
  let w := module_init ∅ in
  let request :=
    stateless_request w (VStr "abc") "What is the policy?" None None 6 true true in
  svc (sent w ++ [request]) = Answered failure
  ∧ status_code failure ≠ 200
  ∧ ∃ w',
      query_stateless svc sample_float_repr (VStr "abc") "What is the policy?" None
        None 6 true true w = (Returns None, w')
      ∧ last (stdout w') =
          Some (LF +:+ "Error: " +:+ pretty (status_code failure) +:+ " - "
                +:+ text failure)
      ∧ sent w' = sent w ++ [request].
Proof.
  intros svc w request. split; [reflexivity|]. split; [discriminate|].
  apply (stateless_failure svc sample_float_repr); [reflexivity | discriminate].
Defined.

(** C8 on the same service: the first turn fails, the second is sent. *)
Lemma failed_turn_continues_witness :
  let svc := service (listing_of [hr_notebook]) failure in
  let w := module_init ∅ in
  let turn := conversational_turn svc sample_float_repr (VStr "abc") "session-0" None 5 in
  let request := turn_request w (VStr "abc") "session-0" None 5 in
  let first := "What is the work from home policy?" in
  let rest := ["What are the eligibility requirements for it?"] in
  svc (sent w ++ [request first]) = Answered failure
  ∧ status_code failure ≠ 200
  ∧ ∃ w1,
      turn (1%nat, first) w = (Returns tt, w1)
      ∧ last (stdout w1) =
          Some ("Error: " +:+ pretty (status_code failure) +:+ " - "
                +:+ text failure)
      ∧ sent w1 = sent w ++ [request first]
      ∧ for_each (enumerate 1 (first :: rest)) turn w =
        for_each (enumerate 2 rest) turn w1
      ∧ ∀ next rest', rest = next :: rest' →
          request next ∈ sent (for_each (enumerate 1 (first :: rest)) turn w).2.
Proof.
  intros svc w turn request first rest. split; [reflexivity|]. split; [discriminate|].
  apply (failed_turn_continues svc sample_uuid4 sample_float_repr);
    [reflexivity | discriminate].
Defined.

(** C4 on a service whose listing is empty. *)
Lemma empty_listing_no_query_witness :
  let svc := service (listing_of []) answer_complete in
  let w := module_init ∅ in
  (parse_args no_options w).1 = Returns default_namespace
  ∧ (list_notebooks svc sample_float_repr (configured no_options w)).1
    = Returns (VList [])
  ∧ py_truthy (VList []) = false
  ∧ ∃ w',
      main svc sample_uuid4 sample_float_repr no_options w = (Returns tt, w')
      ∧ (∃ new, sent w' = sent w ++ new ∧ Forall (λ r, req_method r = GET) new)
      ∧ (args_list_models default_namespace = false →
         args_list_notebooks default_namespace = false →
         last (stdout w') =
           Some (LF +:+ "No notebooks found. Please create a notebook first.")).
Proof.
  intros svc w. split; [reflexivity|]. split; [vm_compute; reflexivity|].
  split; [reflexivity|].
  apply (empty_listing_no_query svc sample_uuid4 sample_float_repr no_options w
           default_namespace (VList []));
    [reflexivity | vm_compute; reflexivity | reflexivity].
Defined.

(** C5 on a service that lists one notebook, [abc], while the default
    notebook id is requested. *)
Lemma missing_notebook_substituted_witness :
  let svc := service (listing_of [hr_notebook]) failure in
  let w := module_init ∅ in
  let run := main svc sample_uuid4 sample_float_repr no_options w in
  (parse_args no_options w).1 = Returns default_namespace
  ∧ (list_notebooks svc sample_float_repr (configured no_options w)).1
    = Returns (VList [hr_notebook])
  ∧ (∀ nb, nb ∈ [hr_notebook] →
           py_getitem nb "id" ≠ Returns (VStr (args_notebook default_namespace)))
  ∧ ∃ id,
      py_getitem hr_notebook "id" = Returns id
      ∧ (∃ new, sent run.2 = sent w ++ new ∧ Forall (carries id) new)
      ∧ (args_list_models default_namespace = false →
         args_list_notebooks default_namespace = false →
         substitution_notice (py_str sample_float_repr id) ∈ stdout run.2).
Proof.
  intros svc w run.
  assert (∀ nb, nb ∈ [hr_notebook] →
                py_getitem nb "id" ≠ Returns (VStr (args_notebook default_namespace)))
    as Hmissing.
  { intros nb Hnb. apply list_elem_of_In in Hnb. destruct Hnb as [<-|[]].
    discriminate. }
  split; [reflexivity|]. split; [vm_compute; reflexivity|]. split; [exact Hmissing|].
  apply (missing_notebook_substituted svc sample_uuid4 sample_float_repr no_options w
           default_namespace hr_notebook []);
    [reflexivity | vm_compute; reflexivity | exact Hmissing].
Defined.

(** The run of C5 in full: the notice names [abc], and the four queries
    of the demo are sent for [abc]. *)
Lemma substituted_run :
  let run :=
    main (service (listing_of [hr_notebook]) failure) sample_uuid4 sample_float_repr
      no_options (module_init ∅) in
  run.1 = Returns tt
  ∧ substitution_notice "abc" ∈ stdout run.2
  ∧ map req_method (sent run.2) = [GET; POST; POST; POST; POST]
  ∧ map (λ r, body ← req_json r; body !! "notebook_id") (sent run.2)
    = [None; Some (VStr "abc"); Some (VStr "abc"); Some (VStr "abc");
       Some (VStr "abc")].
Proof.
  split; [vm_compute; reflexivity|].
  split; [apply list_elem_of_In; vm_compute; tauto|].
  split; vm_compute; reflexivity.
Qed.

(** The demo against a service that answers every query in full: the
    run ends normally; the stateless query asks for six sources and has
    no session; the three turns of the conversation follow in order, with
    one session id, two sources and five messages of history. *)
Lemma demo_run :
  let run :=
    main (service (listing_of [hr_notebook]) answer_complete) sample_uuid4
      sample_float_repr
      {| opt_model := None; opt_notebook := Some "abc"; opt_query := None;
         opt_url := None; opt_api_key := None; opt_list_models := false;
         opt_list_notebooks := false; opt_no_demo := false; opt_top_k := None;
         opt_max_sources := None; opt_no_reranker := false;
         opt_include_raptor := false; opt_max_history := None |}
      (module_init ∅) in
  let field name r := body ← req_json r; body !! name in
  run.1 = Returns tt
  ∧ uuids_drawn run.2 = 1%nat
  ∧ map req_method (sent run.2) = [GET; POST; POST; POST; POST]
  ∧ map (field "query") (sent run.2) =
      None :: Some (VStr demo_query) :: map (λ q, Some (VStr q)) demo_conversation
  ∧ map (field "session_id") (sent run.2) =
      [None; None; Some (VStr "session-0"); Some (VStr "session-0");
       Some (VStr "session-0")]
  ∧ map (field "max_sources") (sent run.2) =
      [None; Some (VInt 6); Some (VInt 2); Some (VInt 2); Some (VInt 2)]
  ∧ map (field "max_history") (sent run.2) =
      [None; None; Some (VInt 5); Some (VInt 5); Some (VInt 5)].
Proof. repeat split; vm_compute; reflexivity. Qed.

(* ================================================================== *)
(** ** The further properties on the samples *)

(** X3 on a service that gives the complete answer to every request. *)
Lemma tolerant_conversation_witness :
  let svc := steady answer_complete in
  let w := module_init ∅ in
  let run :=
    query_conversational svc sample_uuid4 sample_float_repr (VStr "abc")
      demo_conversation None 5 w in
  (∀ history, ∃ resp, svc history = Answered resp ∧ tolerated resp = true)
  ∧ run.1 = Returns tt
  ∧ sent run.2 =
      sent w ++ map (turn_request w (VStr "abc") (sample_uuid4 (uuids_drawn w))
                       None 5) demo_conversation.
Proof.
  intros svc w run.
  assert (∀ history, ∃ resp, svc history = Answered resp ∧ tolerated resp = true)
    as Hsvc.
  { intros history. exists answer_complete. split; reflexivity. }
  split; [exact Hsvc|].
  apply (tolerant_conversation svc sample_uuid4 sample_float_repr (VStr "abc")
           demo_conversation None 5 w Hsvc).
Defined.

(** X4 on a service that answers a query with a page that is not
    JSON. *)
Lemma untolerated_turn_aborts_witness :
  let svc := service (listing_of [hr_notebook]) not_json in
  let w := module_init ∅ in
  let turn := conversational_turn svc sample_float_repr (VStr "abc") "session-0" None 5 in
  let request := turn_request w (VStr "abc") "session-0" None 5 in
  let first := "What is the work from home policy?" in
  let rest := ["What are the eligibility requirements for it?"] in
  (∀ resp, svc (sent w ++ [request first]) = Answered resp → tolerated resp = false)
  ∧ ∃ e w1,
      for_each (enumerate 1 (first :: rest)) turn w = (Raises e, w1)
      ∧ sent w1 = sent w ++ [request first].
Proof.
  intros svc w turn request first rest.
  assert (∀ resp, svc (sent w ++ [request first]) = Answered resp →
                  tolerated resp = false) as Hbad.
  { intros resp Hresp. injection Hresp as <-. reflexivity. }
  split; [exact Hbad|].
  apply (untolerated_turn_aborts svc sample_float_repr (VStr "abc") "session-0"
           None 5 1%nat first rest w Hbad).
Defined.

(** X8 on the command line [--list-models], against a service that
    cannot be reached. *)
Lemma list_models_offline_witness :
  let argv := options_with None true false in
  let args := namespace_with None true false in
  let w := module_init ∅ in
  (parse_args argv w).1 = Returns args
  ∧ args_list_models args = true
  ∧ ∃ w',
      main unreachable sample_uuid4 sample_float_repr argv w = (Returns tt, w')
      ∧ sent w' = sent w
      ∧ uuids_drawn w' = uuids_drawn w
      ∧ stdout w' =
        stdout w ++ [LF +:+ rule_eq; "Available Models"; rule_eq]
                 ++ catalogue_lines AVAILABLE_MODELS ++ [""].
Proof.
  intros argv args w. split; [reflexivity|]. split; [reflexivity|].
  apply (list_models_offline unreachable sample_uuid4 sample_float_repr argv w args);
    reflexivity.
Defined.

(** X9 on the command line [--list-notebooks]. *)
Lemma list_notebooks_only_witness :
  let svc := service (listing_of [hr_notebook]) answer_complete in
  let argv := options_with None false true in
  let args := namespace_with None false true in
  let w := module_init ∅ in
  let wc := configured argv w in
  let run := main svc sample_uuid4 sample_float_repr argv w in
  (parse_args argv w).1 = Returns args
  ∧ args_list_models args = false
  ∧ args_list_notebooks args = true
  ∧ sent run.2 = sent w ++ [listing_request wc]
  ∧ uuids_drawn run.2 = uuids_drawn w
  ∧ stdout run.2 = stdout (list_notebooks svc sample_float_repr wc).2
  ∧ (run.1 = Returns tt
     ↔ ∃ notebooks, (list_notebooks svc sample_float_repr wc).1 = Returns notebooks).
Proof.
  intros svc argv args w wc run.
  split; [reflexivity|]. split; [reflexivity|]. split; [reflexivity|].
  apply (list_notebooks_only svc sample_uuid4 sample_float_repr argv w args);
    reflexivity.
Defined.

(** X10 on a service that cannot be reached. *)
Lemma listing_transport_failure_witness :
  let argv := no_options in
  let w := module_init ∅ in
  (parse_args argv w).1 = Returns default_namespace
  ∧ args_list_models default_namespace = false
  ∧ unreachable (sent w ++ [listing_request (configured argv w)]) = NoAnswer
  ∧ ∃ w',
      main unreachable sample_uuid4 sample_float_repr argv w
      = (Raises ConnectionError, w')
      ∧ sent w' = sent w ++ [listing_request (configured argv w)].
Proof.
  intros argv w. split; [reflexivity|]. split; [reflexivity|]. split; [reflexivity|].
  apply (listing_transport_failure unreachable sample_uuid4 sample_float_repr argv w
           default_namespace); reflexivity.
Defined.

(** X11 on a service that answers 500 to every request. *)
Lemma listing_failure_ends_run_witness :
  let svc := steady failure in
  let argv := no_options in
  let w := module_init ∅ in
  (parse_args argv w).1 = Returns default_namespace
  ∧ args_list_models default_namespace = false
  ∧ args_list_notebooks default_namespace = false
  ∧ svc (sent w ++ [listing_request (configured argv w)]) = Answered failure
  ∧ status_code failure ≠ 200
  ∧ ∃ w' lines,
      main svc sample_uuid4 sample_float_repr argv w = (Returns tt, w')
      ∧ sent w' = sent w ++ [listing_request (configured argv w)]
      ∧ stdout w' =
        stdout w ++ lines
          ++ [ "Error: " +:+ pretty (status_code failure) +:+ " - " +:+ text failure;
               LF +:+ "No notebooks found. Please create a notebook first." ].
Proof.
  intros svc argv w. split; [reflexivity|]. split; [reflexivity|].
  split; [reflexivity|]. split; [reflexivity|]. split; [discriminate|].
  apply (listing_failure_ends_run svc sample_uuid4 sample_float_repr argv w
           default_namespace failure);
    [reflexivity | reflexivity | reflexivity | reflexivity | discriminate].
Defined.

(** X13 on the same service, for the demo alone. *)
Lemma failures_do_not_stop_queries_witness :
  let svc := steady failure in
  let w := module_init ∅ in
  let run :=
    run_queries svc sample_uuid4 sample_float_repr default_namespace (VStr "abc") w in
  (∀ history, ∃ resp, svc history = Answered resp ∧ status_code resp ≠ 200)
  ∧ run.1 = Returns tt
  ∧ sent run.2 = sent w ++ planned_queries sample_uuid4 default_namespace (VStr "abc") w.
Proof.
  intros svc w run.
  assert (∀ history, ∃ resp, svc history = Answered resp ∧ status_code resp ≠ 200)
    as Hfail.
  { intros history. exists failure. split; [reflexivity | discriminate]. }
  split; [exact Hfail|].
  apply (failures_do_not_stop_queries svc sample_uuid4 sample_float_repr
           default_namespace (VStr "abc") w Hfail).
Defined.

(** X14 on the command line [--notebook abc], against a service that
    lists the notebook [abc]. *)
Lemma listed_notebook_queried_witness :
  let svc := service (listing_of [hr_notebook]) answer_complete in
  let argv := options_with (Some "abc") false false in
  let args := namespace_with (Some "abc") false false in
  let w := module_init ∅ in
  let wc := configured argv w in
  let plan := planned_queries sample_uuid4 args (VStr (args_notebook args)) wc in
  let run := main svc sample_uuid4 sample_float_repr argv w in
  (parse_args argv w).1 = Returns args
  ∧ args_list_models args = false
  ∧ args_list_notebooks args = false
  ∧ svc (sent w ++ [listing_request wc]) = Answered (listing_of [hr_notebook])
  ∧ status_code (listing_of [hr_notebook]) = 200
  ∧ json_body (listing_of [hr_notebook])
    = Some (VDict [("notebooks", VList [hr_notebook])])
  ∧ dict_lookup "notebooks" [("notebooks", VList [hr_notebook])]
    = Some (VList [hr_notebook])
  ∧ forallb printable_notebook [hr_notebook] = true
  ∧ (∃ nb, nb ∈ [hr_notebook]
           ∧ py_getitem nb "id" = Returns (VStr (args_notebook args)))
  ∧ ∃ n, (n ≤ length plan)%nat
      ∧ (plan ≠ [] → (0 < n)%nat)
      ∧ sent run.2 = sent w ++ listing_request wc :: take n plan
      ∧ (run.1 = Returns tt → n = length plan).
Proof.
  intros svc argv args w wc plan run.
  assert (∃ nb, nb ∈ [hr_notebook]
                ∧ py_getitem nb "id" = Returns (VStr (args_notebook args)))
    as Hlisted.
  { exists hr_notebook. split; [apply list_elem_of_here | reflexivity]. }
  split; [reflexivity|]. split; [reflexivity|]. split; [reflexivity|].
  split; [reflexivity|]. split; [reflexivity|]. split; [reflexivity|].
  split; [reflexivity|]. split; [vm_compute; reflexivity|]. split; [exact Hlisted|].
  apply (listed_notebook_queried svc sample_uuid4 sample_float_repr argv w args
           (listing_of [hr_notebook]) [("notebooks", VList [hr_notebook])]
           [hr_notebook]);
    [reflexivity | reflexivity | reflexivity | reflexivity | reflexivity
    | reflexivity | reflexivity | vm_compute; reflexivity | exact Hlisted].
Defined.
